(** * time-loguru: the time tracker, embedded and verified

    A shallow embedding of [src/time_loguru/tracker.py].

    - Python [float] is IEEE 754 binary64.  It is modelled by [spec_float]
      with the operations of [SpecFloat] at precision 53 and maximal exponent
      1024: round to nearest, ties to even, computed on integers.
    - Python [str] is modelled by [string]; a character is a code point
      below 256.  [str] of an int keeps to the limit of 4300 digits that
      the interpreter starts with.
    - The sample store ([Dict[str, List[float]]]) is an association list in
      insertion order, the order [dict.items()] iterates in.
    - A call on the tracker takes the tracker and gives back an outcome (a
      value or an exception) and the tracker as the call leaves it.
    - The logger and [time.perf_counter] are not code of the tracker: they
      are parameters of the model (section [Tracker]).  The tracker carries
      the list of the calls it has made on its logger and the number of
      clock readings taken.
    - The model is sequential: the lock is not represented.  The bookkeeping
      of [add_event_sink] is left out. *)

From Stdlib Require Import ZArith List String Ascii Bool Lia.
From Stdlib Require Import Permutation Sorted.
From Stdlib Require Import Floats.SpecFloat Numbers.DecimalString.
From Stdlib Require Import Numbers.DecimalZ.
Import ListNotations.

Open Scope string_scope.
Open Scope Z_scope.

(* ================================================================= *)
(** * Python floats *)

Module PyFloat.

Definition prec : Z := 53.
Definition emax : Z := 1024.

Definition float : Type := spec_float.

Definition fadd : float -> float -> float := SFadd prec emax.
Definition fsub : float -> float -> float := SFsub prec emax.
Definition fmul : float -> float -> float := SFmul prec emax.
Definition fdiv : float -> float -> float := SFdiv prec emax.

(** [x < y] and [x <= y] on floats; both are false when an operand is a
    NaN. *)
Definition flt : float -> float -> bool := SFltb.
Definition fle : float -> float -> bool := SFleb.

(** [float(n)] for a Python int: the nearest binary64, ties to even. *)
Definition of_int (n : Z) : float := binary_normalize prec emax n 0 false.

(** The literal [0.0]. *)
Definition zero : float := S754_zero false.

(** The literal [1000.0]. *)
Definition thousand : float := of_int 1000.

Definition is_nan (x : float) : bool :=
  match x with S754_nan => true | _ => false end.

(** The well-formed binary64 values. *)
Definition valid (x : float) : bool := valid_binary prec emax x.

(** [max(a, b)] of the builtin with two positional arguments: the first
    argument is kept unless the second compares greater. *)
Definition py_max2 (a b : float) : float := if flt a b then b else a.

(** [min(d)] and [max(d)] of the builtins on a non-empty list: the running
    item is replaced when the next one compares smaller (greater). *)
Definition py_min (x : float) (d : list float) : float :=
  fold_left (fun cur item => if flt item cur then item else cur) d x.

Definition py_max (x : float) (d : list float) : float :=
  fold_left (fun cur item => if flt cur item then item else cur) d x.

(** [sum(d)]: the accumulator starts at the int [0], which becomes [0.0] at
    the first float, and the items are added from left to right.  (From
    CPython 3.12 on the loop also carries a compensation term; it is zero
    whenever every addition is exact, as in the runs below.) *)
Definition py_sum (d : list float) : float := fold_left fadd d zero.

(** ** Fixed-point formatting, [format(x, ".pf")]

    The decimal expansion is that of the exact binary value, rounded to [p]
    fractional digits, ties to even. *)

(** [round_half_even num den] is the integer nearest to [num / den]. *)
Definition round_half_even (num den : Z) : Z :=
  let q := num / den in
  let r := num mod den in
  match 2 * r ?= den with
  | Lt => q
  | Gt => q + 1
  | Eq => if Z.even q then q else q + 1
  end.

(** The integer nearest to [m * 2^e * 10^p]. *)
Definition scaled (m : positive) (e : Z) (p : nat) : Z :=
  let t := Zpos m * 10 ^ Z.of_nat p in
  if 0 <=? e then t * 2 ^ e else round_half_even t (2 ^ (- e)).

Definition dec (n : Z) : string := NilZero.string_of_int (Z.to_int n).

Fixpoint zeros (n : nat) : string :=
  match n with O => "" | S n' => String "0" (zeros n') end.

(** The digits of the scaled integer [n], with the point before the last
    [p] digits. *)
Definition fixed_digits (p : nat) (n : Z) : string :=
  let unit := 10 ^ Z.of_nat p in
  match p with
  | O => dec n
  | _ =>
      let frac := dec (n mod unit) in
      dec (n / unit) ++ "." ++ zeros (p - String.length frac) ++ frac
  end.

Definition sign_str (s : bool) : string := if s then "-" else "".

Definition format_f (p : nat) (x : float) : string :=
  match x with
  | S754_nan => "nan"
  | S754_infinity s => sign_str s ++ "inf"
  | S754_zero s => sign_str s ++ fixed_digits p 0
  | S754_finite s m e => sign_str s ++ fixed_digits p (scaled m e p)
  end.

End PyFloat.

Import PyFloat.

(* ================================================================= *)
(** * Python strings *)

Module Str.

(** [c.isspace()] for a code point below 256. *)
Definition isspace (c : ascii) : bool :=
  let n := N_of_ascii c in
  ((9 <=? n) && (n <=? 13) || (28 <=? n) && (n <=? 32)
   || (n =? 133) || (n =? 160))%N.

Fixpoint lstrip (s : string) : string :=
  match s with
  | String c s' => if isspace c then lstrip s' else s
  | EmptyString => EmptyString
  end.

Fixpoint rstrip (s : string) : string :=
  match s with
  | String c s' =>
      match rstrip s' with
      | EmptyString => if isspace c then EmptyString else String c EmptyString
      | r => String c r
      end
  | EmptyString => EmptyString
  end.

(** [s.strip()] *)
Definition strip (s : string) : string := rstrip (lstrip s).

(** [c.lower()] for a code point below 256: the ASCII capitals and the
    Latin-1 capitals other than the multiplication sign. *)
Definition lower_char (c : ascii) : ascii :=
  let n := N_of_ascii c in
  if ((65 <=? n) && (n <=? 90)
      || (192 <=? n) && (n <=? 222) && negb (n =? 215))%N
  then ascii_of_N (n + 32) else c.

Fixpoint lower (s : string) : string :=
  match s with
  | String c s' => String (lower_char c) (lower s')
  | EmptyString => EmptyString
  end.

(** [s1 < s2]: lexicographic on code points. *)
Definition lt (s1 s2 : string) : bool := String.ltb s1 s2.

Fixpoint spaces (n : nat) : string :=
  match n with O => "" | S n' => String " " (spaces n') end.

(** [format(s, "w")] and [format(s, "<w")]: padded on the right. *)
Definition ljust (w : nat) (s : string) : string :=
  s ++ spaces (w - String.length s).

(** [format(s, ">w")], and [format(n, "wd")] on the digits of [n]: padded
    on the left. *)
Definition rjust (w : nat) (s : string) : string :=
  spaces (w - String.length s) ++ s.

(** [s * n] *)
Definition mul (s : string) (n : Z) : string :=
  String.concat "" (repeat s (Z.to_nat n)).

(** [s[:n]] *)
Definition prefix (n : nat) (s : string) : string := substring 0 n s.

Definition newline : string := String (ascii_of_nat 10) "".

(** [sep.join(l)] *)
Definition join (sep : string) (l : list string) : string :=
  String.concat sep l.

(** [len(s)] *)
Definition len (s : string) : Z := Z.of_nat (String.length s).

End Str.

(* ================================================================= *)
(** * Python values and exceptions *)

(** The values passed where the tracker coerces or tests its argument
    ([bool(emit_each)], [str(summary_level)], [isinstance(task, str)],
    [time_unit not in (...)], [sort_by not in key_funcs]): a bool, an int or
    a str.  [None] is the absent argument, an [option]. *)
Inductive pyval : Type :=
| PyBool (b : bool)
| PyInt (n : Z)
| PyStr (s : string).

(** [bool(v)] *)
Definition py_bool (v : pyval) : bool :=
  match v with
  | PyBool b => b
  | PyInt n => negb (n =? 0)
  | PyStr s => negb (String.eqb s "")
  end.

(** [v == s] for a str [s]. *)
Definition py_eq_str (v : pyval) (s : string) : bool :=
  match v with
  | PyStr s' => String.eqb s' s
  | _ => false
  end.

(** An exception: the name of its class and its message. *)
Record pyexc : Type := mk_exc { exc_name : string; exc_msg : string }.

Definition ValueError (msg : string) : pyexc := mk_exc "ValueError" msg.

(** What a call does: it returns a value or raises. *)
Inductive outcome (A : Type) : Type :=
| Returned (a : A)
| Raised (e : pyexc).

Arguments Returned {A} a.
Arguments Raised {A} e.

(** [sys.get_int_max_str_digits()] as the interpreter starts: the most
    digits of an int that [str] converts.  (CPython 3.11, and the releases
    since 3.7.14, 3.8.14, 3.9.14 and 3.10.7; earlier ones have no limit.) *)
Definition int_max_str_digits : nat := 4300.

(** The decimal digits of an int, without its sign. *)
Definition int_digits (n : Z) : nat := String.length (dec (Z.abs n)).

Definition int_str_error : pyexc :=
  ValueError
    ("Exceeds the limit (4300 digits) for integer string conversion; "
     ++ "use sys.set_int_max_str_digits() to increase the limit").

(** [str(v)]: it raises on an int of more digits than the limit. *)
Definition py_str (v : pyval) : outcome string :=
  match v with
  | PyBool true => Returned "True"
  | PyBool false => Returned "False"
  | PyInt n =>
      if (int_max_str_digits <? int_digits n)%nat
      then Raised int_str_error
      else Returned (dec n)
  | PyStr s => Returned s
  end.

(** The str that [v] is.  [configure] stores [time_unit] as it is, once it
    has compared equal to ["ms"] or ["s"]: only a str gets there, and what
    is given for the other values is never used. *)
Definition str_value (v : pyval) : string :=
  match v with
  | PyStr s => s
  | _ => ""
  end.

(* ================================================================= *)
(** * The Logger Collaborator *)

(** A value bound into a record's [extra]. *)
Inductive logval : Type :=
| LStr (s : string)
| LFloat (x : float).

(** One emission: the [extra] bound with [bind], the [raw] flag given to
    [opt], and the level, message and keyword arguments given to [log]. *)
Record log_call : Type := mk_call {
  call_extra : list (string * logval);
  call_raw : bool;
  call_level : string;
  call_message : string;
  call_kwargs : list (string * string)
}.

(* ================================================================= *)
(** * Data model *)

Record TaskStats : Type := mk_stats {
  task : string;
  count : Z;
  total_s : float;
  avg_s : float;
  min_s : float;
  max_s : float;
  last_s : float
}.

(** [self._records]: task name to samples, in insertion order. *)
Definition records : Type := list (string * list float).

(** The tracker, together with what it has sent to its logger and the
    number of clock readings taken so far. *)
Record TimeTracker : Type := mk_tracker {
  _records : records;
  _emit_each : bool;
  _time_unit : string;
  _summary_level : string;
  logged : list log_call;
  ticks : nat
}.

(** [TimeTracker.__init__] *)
Definition init : TimeTracker :=
  mk_tracker [] false "s" "INFO" [] 0.

Record _TaskContext : Type := mk_ctx {
  _task : string;
  _level_name : string;
  _t0 : option float
}.

(** ** The store as a dict *)

(** [r.get(k)] *)
Fixpoint lookup (k : string) (r : records) : option (list float) :=
  match r with
  | [] => None
  | (k', d) :: r' => if String.eqb k' k then Some d else lookup k r'
  end.

(** [r.setdefault(k, []).append(x)] *)
Fixpoint setdefault_append (k : string) (x : float) (r : records) : records :=
  match r with
  | [] => [(k, [x])]
  | (k', d) :: r' =>
      if String.eqb k' k then (k', (d ++ [x])%list) :: r'
      else (k', d) :: setdefault_append k x r'
  end.

(** ** [list.sort(key=..., reverse=...)]

    The sort is stable and compares keys with [<] only.  With [reverse] the
    list is reversed, sorted and reversed again, which keeps equal items in
    their original order.  Keys that [<] orders (no NaN among them) have one
    stable sorted arrangement, the one given here; what [list.sort] makes of
    a list with a NaN key depends on its merging and is not modelled. *)

Inductive sort_key : Type :=
| KFloat (x : float)
| KInt (n : Z)
| KStr (s : string).

Definition key_lt (a b : sort_key) : bool :=
  match a, b with
  | KFloat x, KFloat y => flt x y
  | KInt n, KInt m => n <? m
  | KStr s, KStr t => Str.lt s t
  | _, _ => false
  end.

Fixpoint insert {A : Type} (lt : A -> A -> bool) (x : A) (l : list A) : list A :=
  match l with
  | [] => [x]
  | y :: l' => if lt x y then x :: l else y :: insert lt x l'
  end.

Definition stable_sort {A : Type} (lt : A -> A -> bool) (l : list A) : list A :=
  fold_left (fun acc x => insert lt x acc) l [].

Definition list_sort {A : Type} (key : A -> sort_key) (reverse : bool)
  (l : list A) : list A :=
  let lt a b := key_lt (key a) (key b) in
  if reverse then rev (stable_sort lt (rev l)) else stable_sort lt l.

(** [l[:max(0, int(limit))]] when a limit is given. *)
Definition take_limit {A : Type} (limit : option Z) (l : list A) : list A :=
  match limit with
  | None => l
  | Some n => firstn (Z.to_nat (Z.max 0 n)) l
  end.

(** ** Field updates *)

Definition set_records (r : records) (self : TimeTracker) : TimeTracker :=
  mk_tracker r (_emit_each self) (_time_unit self) (_summary_level self)
    (logged self) (ticks self).

Definition set_emit_each (b : bool) (self : TimeTracker) : TimeTracker :=
  mk_tracker (_records self) b (_time_unit self) (_summary_level self)
    (logged self) (ticks self).

Definition set_time_unit (u : string) (self : TimeTracker) : TimeTracker :=
  mk_tracker (_records self) (_emit_each self) u (_summary_level self)
    (logged self) (ticks self).

Definition set_summary_level (l : string) (self : TimeTracker) : TimeTracker :=
  mk_tracker (_records self) (_emit_each self) (_time_unit self) l
    (logged self) (ticks self).

Definition set_logged (l : list log_call) (self : TimeTracker) : TimeTracker :=
  mk_tracker (_records self) (_emit_each self) (_time_unit self)
    (_summary_level self) l (ticks self).

Definition set_ticks (n : nat) (self : TimeTracker) : TimeTracker :=
  mk_tracker (_records self) (_emit_each self) (_time_unit self)
    (_summary_level self) (logged self) n.

(** The configuration of §3: the three tracker-owned knobs. *)
Definition config (self : TimeTracker) : bool * string * string :=
  (_emit_each self, _time_unit self, _summary_level self).

(** ** Calls on the tracker: state and exceptions *)

Definition M (A : Type) : Type := TimeTracker -> outcome A * TimeTracker.

Definition ret {A : Type} (a : A) : M A := fun self => (Returned a, self).

Definition raise {A : Type} (e : pyexc) : M A := fun self => (Raised e, self).

Definition bind {A B : Type} (c : M A) (k : A -> M B) : M B :=
  fun self =>
    match c self with
    | (Returned a, self') => k a self'
    | (Raised e, self') => (Raised e, self')
    end.

Definition get : M TimeTracker := fun self => (Returned self, self).

Definition modify (f : TimeTracker -> TimeTracker) : M unit :=
  fun self => (Returned tt, f self).

(** A call that does not touch the tracker. *)
Definition lift {A : Type} (o : outcome A) : M A := fun self => (o, self).

Declare Scope py_scope.
Delimit Scope py_scope with py.
Notation "x <- c ;; k" := (bind c (fun x => k))
  (at level 61, c at next level, right associativity) : py_scope.
Notation "c ;; k" := (bind c (fun _ => k))
  (at level 61, right associativity) : py_scope.
Open Scope py_scope.

(** ** Statistics *)

(** The body of the loop of [_compute_stats], over [items]. *)
Fixpoint stats_of_items (items : records) : list TaskStats :=
  match items with
  | [] => []
  | (name, d) :: rest =>
      match d with
      | [] => stats_of_items rest
      | x :: d' =>
          let total := py_sum d in
          let n := Z.of_nat (List.length d) in
          mk_stats name n total (fdiv total (of_int n))
            (py_min x d') (py_max x d') (last d x)
          :: stats_of_items rest
      end
  end.

Definition _compute_stats (self : TimeTracker) : list TaskStats :=
  stats_of_items (_records self).

(** ** Rendering *)

Definition dquote : string := String (ascii_of_nat 34) "".

Definition _fmt_time (self : TimeTracker) (seconds : float) : string :=
  if String.eqb (_time_unit self) "ms"
  then format_f 3 (fmul seconds thousand) ++ " ms"
  else format_f 6 seconds ++ " s".

Definition header : string :=
  Str.join "  "
    [Str.ljust 30 "TASK"; Str.rjust 7 "COUNT"; Str.rjust 14 "TOTAL";
     Str.rjust 14 "AVG"; Str.rjust 14 "MIN"; Str.rjust 14 "MAX";
     Str.rjust 14 "LAST"].

Definition row (self : TimeTracker) (s : TaskStats) : string :=
  Str.join "  "
    [Str.ljust 30 (Str.prefix 30 (task s));
     Str.rjust 7 (dec (count s));
     Str.rjust 14 (_fmt_time self (total_s s));
     Str.rjust 14 (_fmt_time self (avg_s s));
     Str.rjust 14 (_fmt_time self (min_s s));
     Str.rjust 14 (_fmt_time self (max_s s));
     Str.rjust 14 (_fmt_time self (last_s s))].

(** The last line of a table with rows. *)
Definition total_row (self : TimeTracker) (grand_total : float) : string :=
  Str.join "  "
    [Str.ljust 30 "TOTAL (all tasks)"; Str.ljust 7 "";
     Str.rjust 14 (_fmt_time self grand_total)].

Definition _render_summary (self : TimeTracker) (stats : list TaskStats)
  (title : string) : string :=
  let lines := [title; Str.mul "-" (Z.max 24 (Str.len title))] in
  match stats with
  | [] => Str.join Str.newline (lines ++ ["(no data)"])%list
  | _ =>
      let lines := (lines ++ [header; Str.mul "-" (Str.len header)])%list in
      let lines := (lines ++ map (row self) stats)%list in
      let grand_total := py_sum (map total_s stats) in
      let lines := (lines ++ [Str.mul "-" (Str.len header)])%list in
      let lines := (lines ++ [total_row self grand_total])%list in
      Str.join Str.newline lines
  end.

(** The table of a tracker without samples. *)
Definition no_data (title : string) : string :=
  Str.join Str.newline
    [title; Str.mul "-" (Z.max 24 (Str.len title)); "(no data)"].

(** [key_funcs] of [summary]. *)
Definition key_funcs : list (string * (TaskStats -> sort_key)) :=
  [("total", fun s => KFloat (total_s s));
   ("avg", fun s => KFloat (avg_s s));
   ("count", fun s => KInt (count s));
   ("max", fun s => KFloat (max_s s));
   ("min", fun s => KFloat (min_s s));
   ("task", fun s => KStr (Str.lower (task s)))].

(** [key_funcs[sort_by]], or [None] when [sort_by not in key_funcs]. *)
Definition key_func (sort_by : pyval) : option (TaskStats -> sort_key) :=
  match find (fun kf => py_eq_str sort_by (fst kf)) key_funcs with
  | Some kf => Some (snd kf)
  | None => None
  end.

(* ================================================================= *)
(** * Vocabulary of the statements *)

(** A sample is a float [>= 0.0]; in particular it is not a NaN. *)
Definition sample_ok (x : float) : Prop := fle zero x = true.

(** The invariant of the store: it is a dict (no key twice), no series is
    empty, and every sample is [>= 0.0]. *)
Definition store_ok (r : records) : Prop :=
  NoDup (map fst r) /\
  Forall (fun kd => snd kd <> [] /\ Forall sample_ok (snd kd)) r.

(** The scan behind [min] and [max], for an order [lt]. *)
Definition scan (lt : float -> float -> bool) (x : float) (d : list float)
  : float :=
  fold_left (fun cur item => if lt item cur then item else cur) d x.

(** [a] may stand before [b] in ascending order: [b] is not below [a]. *)
Definition not_above {A : Type} (lt : A -> A -> bool) (a b : A) : Prop :=
  lt b a = false.

(** [a] may stand before [b] in descending order: [a] is not below [b]. *)
Definition not_below {A : Type} (lt : A -> A -> bool) (a b : A) : Prop :=
  lt a b = false.

(** The state of a right shift of [N] by [k] bits: the quotient, the bit
    shifted out last and whether a lower bit was set. *)
Definition shr_inv (N k : Z) (mrs : shr_record) : Prop :=
  0 <= k /\ 0 <= shr_m mrs /\
  exists low, 0 <= low < 2 ^ k /\
    2 * N = shr_m mrs * 2 ^ (k + 1) + (if shr_r mrs then 2 ^ k else 0) + low /\
    (shr_s mrs = true <-> low <> 0).

(** The inverse of the unit roundoff of binary64. *)
Definition two_53 : Z := 2 ^ 53.

(** The least exponent of binary64, -1074. *)
Definition emin64 : Z := emin prec emax.

(** The value of a finite float, in units of 2^-1074. *)
Definition units (x : float) : Z :=
  match x with
  | S754_finite _ m e => Zpos m * 2 ^ (e - emin64)
  | _ => 0
  end.

(** The floats that are finite and not negative, with an exponent in
    range. *)
Definition summable (x : float) : Prop :=
  match x with
  | S754_zero _ => True
  | S754_finite s m e => s = false /\ emin64 <= e
  | _ => False
  end.

(** The exact sum of finite floats, in units of 2^-1074. *)
Definition exact_sum (d : list float) : Z :=
  fold_right (fun x acc => units x + acc) 0 d.

(** The order of two rows, the first before the second, in a list sorted by
    [key]. *)
Definition key_order {A : Type} (key : A -> sort_key) (reverse : bool)
  (a b : A) : Prop :=
  if reverse then key_lt (key a) (key b) = false
  else key_lt (key b) (key a) = false.

(** The record [_compute_stats] builds from the series [x :: d]. *)
Definition stats_of (name : string) (x : float) (d : list float) : TaskStats :=
  let n := Z.of_nat (List.length (x :: d)) in
  mk_stats name n (py_sum (x :: d)) (fdiv (py_sum (x :: d)) (of_int n))
    (py_min x d) (py_max x d) (last (x :: d) x).

(** The series of a task, empty when the task has none. *)
Definition series (name : string) (self : TimeTracker) : list float :=
  match lookup name (_records self) with Some d => d | None => [] end.

(** The tracker after the append of [_record]. *)
Definition appended (name : string) (x : float) (self : TimeTracker)
  : TimeTracker :=
  set_records (setdefault_append name x (_records self)) self.

(** The status of an event: [OK], or the class of the exception. *)
Definition status_of (exc : option pyexc) : string :=
  match option_map exc_name exc with None => "OK" | Some n => "EXC:" ++ n end.

(** The strings made of whitespace only, the empty one among them. *)
Fixpoint all_space (s : string) : bool :=
  match s with
  | EmptyString => true
  | String c s' => Str.isspace c && all_space s'
  end.

(** The lines of a table with rows, up to the closing rule. *)
Definition table_head (self : TimeTracker) (stats : list TaskStats)
  (title : string) : list string :=
  ([title; Str.mul "-" (Z.max 24 (Str.len title)); header;
    Str.mul "-" (Str.len header)]
   ++ map (row self) stats ++ [Str.mul "-" (Str.len header)])%list.

(** A key that is a NaN: [<] is false between it and every key. *)
Definition key_nan (k : sort_key) : bool :=
  match k with
  | KFloat x => is_nan x
  | _ => false
  end.

(** The records [summary] renders: sorted, then cut to the limit. *)
Definition shown (key : TaskStats -> sort_key) (descending : bool)
  (limit : option Z) (self : TimeTracker) : list TaskStats :=
  take_limit limit (list_sort key descending (_compute_stats self)).

(** The recognized sort keys. *)
Definition sort_keys : list string := map fst key_funcs.

(** The [time_unit] arguments [configure] accepts: absent, ["ms"] or
    ["s"]. *)
Definition unit_ok (time_unit : option pyval) : bool :=
  match time_unit with
  | Some v => py_eq_str v "ms" || py_eq_str v "s"
  | None => true
  end.

(** The assignments of [configure], in the order of the code. *)
Definition with_emit_each (emit_each : option pyval) (self : TimeTracker)
  : TimeTracker :=
  match emit_each with
  | Some v => set_emit_each (py_bool v) self
  | None => self
  end.

Definition with_time_unit (time_unit : option pyval) (self : TimeTracker)
  : TimeTracker :=
  match time_unit with
  | Some v => set_time_unit (str_value v) self
  | None => self
  end.

Definition with_summary_level (summary_level : option pyval)
  (self : TimeTracker) : TimeTracker :=
  match summary_level with
  | Some v =>
      match py_str v with
      | Returned s => set_summary_level s self
      | Raised _ => self
      end
  | None => self
  end.

(** The exception of [str(summary_level)], when it raises. *)
Definition level_fault (summary_level : option pyval) : option pyexc :=
  match summary_level with
  | Some v =>
      match py_str v with
      | Returned _ => None
      | Raised e => Some e
      end
  | None => None
  end.

(* ================================================================= *)
(** * Collaborators and trackers of the concrete runs *)

(** The literal [1.234]: the binary64 nearest to 1234/1000. *)
Definition sample_1_234 : float := S754_finite false 5557441940175192 (-52).

(** The tracker of the example: tasks A, B and C with one sample each, of
    5, 1 and 3 seconds. *)
Definition abc : TimeTracker :=
  set_records [("A", [of_int 5]); ("B", [of_int 1]); ("C", [of_int 3])] init.

(** The int written as a 1 and 4300 zeros, [10 ** 4300]: the least int of
    more digits than [str] converts. *)
Definition ten_power_4300 : Z :=
  Z.of_uint (Decimal.D1 (Nat.iter 4300 Decimal.D0 Decimal.Nil)).

(** A tracker whose tasks stand in a different order under each sort key. *)
Definition mixed : TimeTracker :=
  set_records
    [("b", [of_int 6; of_int 6]);
     ("D", [of_int 2; of_int 1; of_int 2]);
     ("a", [of_int 3]);
     ("C", [of_int 4; of_int 4; of_int 8; of_int 2])] init.

(** A tracker with three samples of one task and one of another. *)
Definition demo : TimeTracker :=
  set_records
    [("load", [of_int 2; fdiv (of_int 1) (of_int 2); of_int 1]);
     ("save", [of_int 3])] init.

(** The block of the runs below: it raises a [KeyError]. *)
Definition key_error : pyexc := mk_exc "KeyError" "missing".
Definition failing_block : M unit := raise key_error.

(** A clock that advances by one second per reading, and one that runs
    backwards. *)
Definition steady_clock (k : nat) : float := of_int (Z.of_nat k).
Definition backward_clock (k : nat) : float := of_int (10 - Z.of_nat k).

(** A clock whose readings are 0, 1, 4, 9, ... *)
Definition quadratic_clock (k : nat) : float := of_int (Z.of_nat (k * k)).

(** A logger that accepts every call, one whose sink always fails, and one
    that knows the seven standard levels only. *)
Definition quiet_logger (past : list log_call) (c : log_call) : option pyexc :=
  None.

Definition broken_logger (past : list log_call) (c : log_call) : option pyexc :=
  Some (mk_exc "RuntimeError" "sink failed").

Definition level_logger (past : list log_call) (c : log_call) : option pyexc :=
  if existsb (String.eqb (call_level c))
       ["TRACE"; "DEBUG"; "INFO"; "SUCCESS"; "WARNING"; "ERROR"; "CRITICAL"]
  then None
  else Some (ValueError ("Level '" ++ call_level c ++ "' does not exist")).

(* ================================================================= *)
(** * The rest of the interface *)

(** [d.get(k)] on the keyword arguments bound to a message. *)
Fixpoint dict_get (k : string) (d : list (string * logval)) : option logval :=
  match d with
  | [] => None
  | (k', v) :: d' => if String.eqb k' k then Some v else dict_get k d'
  end.

(** [_only_tracker_events(record)], the filter [add_event_sink] gives to the
    logger.  It reads [record.get("extra", {})]: the argument is the [extra]
    of the record, if the record has one. *)
Definition _only_tracker_events (extra : option (list (string * logval)))
  : bool :=
  match dict_get "event" (match extra with Some d => d | None => [] end) with
  | Some (LStr s) => String.eqb s "time_logger"
  | _ => false
  end.

(** A message of the tracker: its bound context passes the filter and names
    its kind, and no keyword argument of the call is named [event]. *)
Definition tagged (c : log_call) : Prop :=
  _only_tracker_events (Some (call_extra c)) = true /\
  (dict_get "kind" (call_extra c) = Some (LStr "event") \/
   dict_get "kind" (call_extra c) = Some (LStr "summary")) /\
  ~ In "event" (map fst (call_kwargs c)).

(** The keys of the store, in the order [dict.items()] gives them. *)
Definition keys (r : records) : list string := map fst r.

(** What a timer measures from well-formed readings: a finite float that is
    not negative, or [+inf] when the difference overflows. *)
Definition measured (x : float) : Prop :=
  summable x \/ x = S754_infinity false.

(** A store all of whose samples are such. *)
Definition store_measured (r : records) : Prop :=
  Forall (fun kd => Forall measured (snd kd)) r.

(** A timer that is not started, or was started at a well-formed reading. *)
Definition well_timed (ctx : _TaskContext) : Prop :=
  match _t0 ctx with
  | Some t => valid t = true
  | None => True
  end.

(* ================================================================= *)
(** * The tracker *)

Section Tracker.

(** [clock k] is the [k]-th reading of [time.perf_counter]. *)
Variable clock : nat -> float.

(** [logger_fault past c] is the exception the logger raises on the call
    [c] after the calls [past], if it raises. *)
Variable logger_fault : list log_call -> log_call -> option pyexc.

Definition perf_counter : M float :=
  fun self => (Returned (clock (ticks self)), set_ticks (S (ticks self)) self).

Definition logger_log (c : log_call) : M unit :=
  fun self =>
    let self' := set_logged (logged self ++ [c])%list self in
    match logger_fault (logged self) c with
    | Some e => (Raised e, self')
    | None => (Returned tt, self')
    end.

(** ** Scoped timers *)

Definition _ctx (task : pyval) (level_name : string) : M _TaskContext :=
  match task with
  | PyStr s =>
      if String.eqb (Str.strip s) ""
      then raise (ValueError "task name must be a non-empty string")
      else ret (mk_ctx (Str.strip s) level_name None)
  | _ => raise (ValueError "task name must be a non-empty string")
  end.

Definition trace (task : pyval) : M _TaskContext := _ctx task "TRACE".
Definition debug (task : pyval) : M _TaskContext := _ctx task "DEBUG".
Definition info (task : pyval) : M _TaskContext := _ctx task "INFO".
Definition success (task : pyval) : M _TaskContext := _ctx task "SUCCESS".
Definition warning (task : pyval) : M _TaskContext := _ctx task "WARNING".
Definition error (task : pyval) : M _TaskContext := _ctx task "ERROR".
Definition critical (task : pyval) : M _TaskContext := _ctx task "CRITICAL".

(** The seven public entry points. *)
Definition entry_points : list (pyval -> M _TaskContext) :=
  [trace; debug; info; success; warning; error; critical].

Definition event_call (self : TimeTracker) (name : string) (elapsed_s : float)
  (level_name status : string) : log_call :=
  mk_call
    [("event", LStr "time_logger"); ("kind", LStr "event");
     ("task", LStr name); ("elapsed_s", LFloat elapsed_s);
     ("status", LStr status)]
    false level_name "task={task} | elapsed={elapsed}"
    [("task", name); ("status", status);
     ("elapsed", _fmt_time self elapsed_s)].

(** [exc_type] is the name of the class of the exception, if any. *)
Definition _record (name : string) (elapsed_s : float) (level_name : string)
  (exc_type : option string) : M unit :=
  modify (fun self =>
    set_records (setdefault_append name elapsed_s (_records self)) self);;
  self <- get;;
  if _emit_each self then
    let status :=
      match exc_type with None => "OK" | Some n => "EXC:" ++ n end in
    logger_log (event_call self name elapsed_s level_name status)
  else ret tt.

Definition __enter__ (ctx : _TaskContext) : M _TaskContext :=
  t <- perf_counter;;
  ret (mk_ctx (_task ctx) (_level_name ctx) (Some t)).

(** The elapsed time [__exit__] computes from the readings. *)
Definition elapsed_of (t0 : option float) (t1 : float) : float :=
  let t0 := match t0 with Some t => t | None => t1 end in
  py_max2 zero (fsub t1 t0).

Definition __exit__ (ctx : _TaskContext) (exc : option pyexc) : M bool :=
  t1 <- perf_counter;;
  let elapsed := elapsed_of (_t0 ctx) t1 in
  _record (_task ctx) elapsed (_level_name ctx) (option_map exc_name exc);;
  ret false.

(** [with timer: body], for a timer made by [make]: the exception of the
    body is re-raised unless [__exit__] returns true, and an exception of
    [__exit__] itself replaces it. *)
Definition with_ (make : M _TaskContext) (body : M unit) : M unit :=
  ctx0 <- make;;
  ctx <- __enter__ ctx0;;
  fun self =>
    match body self with
    | (Returned _, self1) => (__exit__ ctx None;; ret tt) self1
    | (Raised e, self1) =>
        (suppress <- __exit__ ctx (Some e);;
         if (suppress : bool) then ret tt else raise e) self1
    end.

(** ** Configuration *)

Definition time_unit_error : pyexc :=
  ValueError ("time_unit must be " ++ dquote ++ "ms" ++ dquote ++ " or "
              ++ dquote ++ "s" ++ dquote).

(** [configure] returns [self]: the tracker as the call leaves it. *)
Definition configure (emit_each time_unit summary_level : option pyval)
  : M TimeTracker :=
  match emit_each with
  | Some v => modify (set_emit_each (py_bool v))
  | None => ret tt
  end;;
  match time_unit with
  | Some v =>
      if negb (py_eq_str v "ms" || py_eq_str v "s")
      then raise time_unit_error
      else modify (set_time_unit (str_value v))
  | None => ret tt
  end;;
  match summary_level with
  | Some v => s <- lift (py_str v);; modify (set_summary_level s)
  | None => ret tt
  end;;
  get.

Definition clear : M unit := modify (set_records []).

(** ** Summary *)

Definition sort_by_error : pyexc :=
  ValueError ("sort_by must be one of: "
              ++ Str.join ", " (map fst key_funcs)).

Definition summary_call (self : TimeTracker) (rendered : string) : log_call :=
  mk_call [("event", LStr "time_logger"); ("kind", LStr "summary")]
    true (_summary_level self) (rendered ++ Str.newline) [].

Definition summary (sort_by : pyval) (descending : bool) (limit : option Z)
  (reset : bool) (title : string) : M string :=
  self <- get;;
  let stats := _compute_stats self in
  match key_func sort_by with
  | None => raise sort_by_error
  | Some key =>
      let stats := list_sort key descending stats in
      let stats := take_limit limit stats in
      let rendered := _render_summary self stats title in
      logger_log (summary_call self rendered);;
      (if reset then clear else ret tt);;
      ret rendered
  end.

(** The defaults of [summary]. *)
Definition default_title : string := "Time Consumption Summary".

(** The emission [__exit__] makes when [emit_each] is on. *)
Definition exit_call (ctx : _TaskContext) (exc : option pyexc)
  (self : TimeTracker) : log_call :=
  let x := elapsed_of (_t0 ctx) (clock (ticks self)) in
  event_call (appended (_task ctx) x (set_ticks (S (ticks self)) self))
    (_task ctx) x (_level_name ctx) (status_of exc).

(** Whether the emission of [__exit__] raises, and what. *)
Definition exit_fault (ctx : _TaskContext) (exc : option pyexc)
  (self : TimeTracker) : option pyexc :=
  if _emit_each self
  then logger_fault (logged self) (exit_call ctx exc self)
  else None.

(** The trackers a program can reach: from a new tracker, by the calls of
    the public interface and the releases of its timers. *)
Inductive reachable : TimeTracker -> Prop :=
| reach_init : reachable init
| reach_enter ctx self :
    reachable self -> reachable (snd (__enter__ ctx self))
| reach_exit ctx exc self :
    reachable self -> reachable (snd (__exit__ ctx exc self))
| reach_configure emit_each time_unit summary_level self :
    reachable self ->
    reachable (snd (configure emit_each time_unit summary_level self))
| reach_clear self :
    reachable self -> reachable (snd (clear self))
| reach_summary sort_by descending limit reset title self :
    reachable self ->
    reachable (snd (summary sort_by descending limit reset title self)).

(* ================================================================= *)
(** * Properties *)

(** ** The order on floats *)

Ltac cmp_cases :=
  repeat match goal with
  | |- context [Z.compare ?a ?b] => destruct (Z.compare_spec a b)
  | H : context [Z.compare ?a ?b] |- _ => destruct (Z.compare_spec a b)
  | |- context [Pos.compare_cont Eq ?a ?b] =>
      change (Pos.compare_cont Eq a b) with (Pos.compare a b);
      destruct (Pos.compare_spec a b)
  | H : context [Pos.compare_cont Eq ?a ?b] |- _ =>
      change (Pos.compare_cont Eq a b) with (Pos.compare a b) in H;
      destruct (Pos.compare_spec a b)
  end.

Ltac float_cases :=
  simpl; try discriminate; try reflexivity; intros;
  cmp_cases; subst; simpl in *; try discriminate; try reflexivity; try lia.

Lemma flt_trans (a b c : float) :
  flt a b = true -> flt b c = true -> flt a c = true.
Proof.
  unfold flt, SFltb, SFcompare.
  destruct a as [[]|[]| |[] ma ea], b as [[]|[]| |[] mb eb],
           c as [[]|[]| |[] mc ec]; float_cases.
Qed.

Lemma flt_irrefl (a : float) : flt a a = false.
Proof.
  unfold flt, SFltb, SFcompare.
  destruct a as [[]|[]| |[] ma ea]; float_cases.
Qed.

Lemma flt_fle (a b : float) : flt a b = true -> fle a b = true.
Proof.
  unfold flt, fle, SFltb, SFleb.
  destruct (SFcompare a b) as [[]|]; congruence.
Qed.

(** Two floats that are not NaN are comparable. *)
Lemma fle_total (a b : float) :
  is_nan a = false -> is_nan b = false -> flt b a = false -> fle a b = true.
Proof.
  unfold flt, fle, SFltb, SFleb, SFcompare.
  destruct a as [[]|[]| |[] ma ea], b as [[]|[]| |[] mb eb]; float_cases.
Qed.

Lemma fle_refl (a : float) : is_nan a = false -> fle a a = true.
Proof. intros H. apply fle_total; auto using flt_irrefl. Qed.

Lemma fle_not_nan_r (a b : float) : fle a b = true -> is_nan b = false.
Proof.
  unfold fle, SFleb, SFcompare.
  destruct a as [[]|[]| |[] ma ea], b as [[]|[]| |[] mb eb];
    simpl; congruence.
Qed.

Lemma sample_ok_not_nan (x : float) : sample_ok x -> is_nan x = false.
Proof. apply fle_not_nan_r. Qed.

Lemma py_max2_zero_ok (x : float) : sample_ok (py_max2 zero x).
Proof.
  unfold sample_ok, py_max2.
  destruct (flt zero x) eqn:E.
  - now apply flt_fle.
  - reflexivity.
Qed.

(** ** [min] and [max] *)

Lemma py_min_in (d : list float) (x : float) : In (py_min x d) (x :: d).
Proof.
  unfold py_min. revert x.
  induction d as [|y d IH]; intros x; simpl.
  - now left.
  - destruct (flt y x); destruct (IH y) as [H|H], (IH x) as [H'|H'];
      simpl in *; auto.
Qed.

Lemma py_max_in (d : list float) (x : float) : In (py_max x d) (x :: d).
Proof.
  unfold py_max. revert x.
  induction d as [|y d IH]; intros x; simpl.
  - now left.
  - destruct (flt x y); destruct (IH y) as [H|H], (IH x) as [H'|H'];
      simpl in *; auto.
Qed.

(** For any strict order [lt], the result of the scan is below the start,
    and no item is below the result. *)
Section Extremum.

Variable lt : float -> float -> bool.
Hypothesis lt_trans : forall a b c, lt a b = true -> lt b c = true -> lt a c = true.
Hypothesis lt_irrefl : forall a, lt a a = false.

Lemma lt_asym (a b : float) : lt a b = true -> lt b a = false.
Proof.
  intros H. destruct (lt b a) eqn:E; [|reflexivity].
  rewrite <- (lt_irrefl a). symmetry. eapply lt_trans; eauto.
Qed.

Lemma scan_start (d : list float) (x : float) :
  scan lt x d = x \/ lt (scan lt x d) x = true.
Proof.
  unfold scan. revert x.
  induction d as [|y d IH]; intros x; simpl; [now left|].
  destruct (lt y x) eqn:E.
  - right. destruct (IH y) as [->|H]; eauto.
  - apply IH.
Qed.

Lemma scan_bound_start (d : list float) (x : float) : lt x (scan lt x d) = false.
Proof.
  destruct (scan_start d x) as [->|H]; auto using lt_asym.
Qed.

Lemma scan_bound (d : list float) (x z : float) :
  In z (x :: d) -> lt z (scan lt x d) = false.
Proof.
  revert x. induction d as [|y d IH]; intros x [<-|Hin].
  - apply lt_irrefl.
  - destruct Hin.
  - apply scan_bound_start.
  - change (scan lt x (y :: d)) with (scan lt (if lt y x then y else x) d).
    destruct Hin as [<-|Hin].
    + destruct (lt y x) eqn:E.
      * apply scan_bound_start.
      * destruct (scan_start d x) as [->|H]; [assumption|].
        destruct (lt y (scan lt x d)) eqn:E'; [|reflexivity].
        rewrite <- E. symmetry. eapply lt_trans; eauto.
    + apply IH. now right.
Qed.

End Extremum.

Lemma py_min_scan (x : float) (d : list float) : py_min x d = scan flt x d.
Proof. reflexivity. Qed.

Lemma py_max_scan (x : float) (d : list float) :
  py_max x d = scan (fun a b => flt b a) x d.
Proof. reflexivity. Qed.

(** [min(d)] is below every sample of [d]. *)
Lemma py_min_le (d : list float) (x z : float) :
  Forall sample_ok (x :: d) -> In z (x :: d) -> fle (py_min x d) z = true.
Proof.
  intros Hok Hin. rewrite Forall_forall in Hok.
  apply fle_total.
  - apply sample_ok_not_nan, Hok, py_min_in.
  - apply sample_ok_not_nan, Hok, Hin.
  - rewrite py_min_scan.
    now apply (scan_bound flt flt_trans flt_irrefl).
Qed.

(** [max(d)] is above every sample of [d]. *)
Lemma py_max_ge (d : list float) (x z : float) :
  Forall sample_ok (x :: d) -> In z (x :: d) -> fle z (py_max x d) = true.
Proof.
  intros Hok Hin. rewrite Forall_forall in Hok.
  apply fle_total.
  - apply sample_ok_not_nan, Hok, Hin.
  - apply sample_ok_not_nan, Hok, py_max_in.
  - rewrite py_max_scan.
    apply (scan_bound (fun a b => flt b a)); auto using flt_irrefl.
    intros a b c H1 H2. exact (flt_trans c b a H2 H1).
Qed.

(** ** The sample store *)

Lemma store_ok_nil : store_ok [].
Proof. split; constructor. Qed.

Lemma lookup_in (k : string) (r : records) (d : list float) :
  lookup k r = Some d -> In (k, d) r.
Proof.
  induction r as [|[k' d'] r IH]; simpl; [discriminate|].
  destruct (String.eqb_spec k' k) as [->|Hne]; intros H.
  - injection H as ->. now left.
  - right. auto.
Qed.

Lemma lookup_none (k : string) (r : records) :
  lookup k r = None <-> ~ In k (map fst r).
Proof.
  induction r as [|[k' d'] r IH]; simpl; [tauto|].
  destruct (String.eqb_spec k' k) as [->|Hne].
  - split; [discriminate|tauto].
  - rewrite IH. tauto.
Qed.

Lemma setdefault_append_keys (k : string) (x : float) (r : records) :
  map fst (setdefault_append k x r) =
  match lookup k r with
  | Some _ => map fst r
  | None => (map fst r ++ [k])%list
  end.
Proof.
  induction r as [|[k' d'] r IH]; simpl; [reflexivity|].
  destruct (String.eqb k' k); simpl; [reflexivity|].
  rewrite IH. now destruct (lookup k r).
Qed.

(** After [setdefault(k, []).append(x)] the series of [k] is the old one
    followed by [x], and the other series are as before. *)
Lemma lookup_setdefault_append (k k' : string) (x : float) (r : records) :
  lookup k' (setdefault_append k x r) =
  if String.eqb k k'
  then Some (match lookup k r with Some d => d | None => [] end ++ [x])%list
  else lookup k' r.
Proof.
  induction r as [|[k0 d0] r IH]; simpl.
  - destruct (String.eqb k k'); reflexivity.
  - destruct (String.eqb_spec k0 k) as [->|Hne]; simpl.
    + destruct (String.eqb k k'); reflexivity.
    + rewrite IH. destruct (String.eqb_spec k0 k') as [->|Hne'].
      * destruct (String.eqb_spec k k'); [congruence|reflexivity].
      * reflexivity.
Qed.

Lemma setdefault_append_ok (k : string) (x : float) (r : records) :
  sample_ok x -> store_ok r -> store_ok (setdefault_append k x r).
Proof.
  intros Hx [Hnd Hall]. split.
  - rewrite setdefault_append_keys.
    destruct (lookup k r) eqn:E; [assumption|].
    apply lookup_none in E.
    apply NoDup_rev in Hnd. rewrite <- (rev_involutive (_ ++ _)%list).
    apply NoDup_rev. rewrite rev_app_distr. simpl.
    constructor; [now rewrite <- in_rev|assumption].
  - clear Hnd. induction Hall as [|[k' d'] r [Hne Hd] Hall IH]; simpl.
    + repeat constructor; [discriminate|assumption].
    + destruct (String.eqb k' k); constructor; simpl in *; auto.
      split.
      * now destruct d'.
      * apply Forall_app. auto.
Qed.

(** ** Statistics of one task *)

Lemma stats_of_items_tasks (items : records) (s : TaskStats) :
  In s (stats_of_items items) -> In (task s) (map fst items).
Proof.
  induction items as [|[k [|x d]] r IH]; simpl; [tauto|auto|].
  intros [<-|H]; auto.
Qed.

Lemma last_default (d : list float) (y a b : float) :
  last (y :: d) a = last (y :: d) b.
Proof.
  revert y. induction d as [|z d IH]; intros y; [reflexivity|].
  apply (IH z).
Qed.

Lemma last_nth_error (d : list float) (x : float) :
  nth_error (x :: d) (List.length d) = Some (last (x :: d) x).
Proof.
  revert x. induction d as [|y d IH]; intros x; [reflexivity|].
  change (nth_error (y :: d) (List.length d) = Some (last (y :: d) x)).
  rewrite IH. f_equal. apply last_default.
Qed.

Lemma stats_of_items_lookup (name : string) (x : float) (d : list float)
  (r : records) :
  lookup name r = Some (x :: d) -> In (stats_of name x d) (stats_of_items r).
Proof.
  induction r as [|[k d0] r IH]; simpl; [discriminate|].
  destruct (String.eqb_spec k name) as [->|Hne]; intros H.
  - injection H as ->. now left.
  - destruct d0; [|right]; auto.
Qed.

Lemma stats_of_items_unique (r : records) (s s' : TaskStats) :
  NoDup (map fst r) ->
  In s (stats_of_items r) -> In s' (stats_of_items r) ->
  task s = task s' -> s = s'.
Proof.
  induction r as [|[k d0] r IH]; simpl; [tauto|].
  intros Hnd. inversion Hnd as [|? ? Hk Hnd']; subst.
  destruct d0 as [|x d]; [now apply IH|].
  intros [<-|H] [<-|H'] Ht; auto; exfalso; apply Hk.
  - simpl in Ht. rewrite Ht. eapply stats_of_items_tasks; eauto.
  - simpl in Ht. rewrite <- Ht. eapply stats_of_items_tasks; eauto.
Qed.

(** What [_compute_stats] gives for one series of a store that satisfies
    its invariant. *)
Lemma compute_stats_of_store (self : TimeTracker) (name : string)
  (d : list float) :
  store_ok (_records self) ->
  lookup name (_records self) = Some d ->
  (1 <= List.length d)%nat ->
  exists s,
    In s (_compute_stats self) /\
    (forall s', In s' (_compute_stats self) -> task s' = name -> s' = s) /\
    task s = name /\
    count s = Z.of_nat (List.length d) /\
    total_s s = py_sum d /\
    avg_s s = fdiv (total_s s) (of_int (count s)) /\
    (In (min_s s) d /\ Forall (fun x => fle (min_s s) x = true) d) /\
    (In (max_s s) d /\ Forall (fun x => fle x (max_s s) = true) d) /\
    nth_error d (List.length d - 1) = Some (last_s s).
Proof.
  intros [Hnd Hall] Hlook Hlen.
  destruct d as [|x d]; [simpl in Hlen; lia|].
  assert (Hok : Forall sample_ok (x :: d)).
  { rewrite Forall_forall in Hall.
    apply (Hall (name, x :: d)). now apply lookup_in. }
  exists (stats_of name x d). unfold _compute_stats.
  repeat split.
  - now apply stats_of_items_lookup.
  - intros s' Hin Ht. eapply stats_of_items_unique; eauto.
    now apply stats_of_items_lookup.
  - apply py_min_in.
  - apply Forall_forall. intros z Hz. now apply py_min_le.
  - apply py_max_in.
  - apply Forall_forall. intros z Hz. now apply py_max_ge.
  - simpl List.length. rewrite Nat.sub_succ, Nat.sub_0_r.
    apply last_nth_error.
Qed.

(** ** Scoped timers *)

Lemma record_eq (name : string) (x : float) (level_name : string)
  (exc_type : option string) (self : TimeTracker) :
  _record name x level_name exc_type self =
  let self1 := appended name x self in
  if _emit_each self then
    logger_log
      (event_call self1 name x level_name
         match exc_type with None => "OK" | Some n => "EXC:" ++ n end)
      self1
  else (Returned tt, self1).
Proof.
  unfold _record, bind, modify, get, appended. simpl.
  now destruct (_emit_each self).
Qed.

Lemma exit_eq (ctx : _TaskContext) (exc : option pyexc) (self : TimeTracker) :
  __exit__ ctx exc self =
  let x := elapsed_of (_t0 ctx) (clock (ticks self)) in
  let self1 := appended (_task ctx) x (set_ticks (S (ticks self)) self) in
  let self2 :=
    if _emit_each self
    then set_logged (logged self ++ [exit_call ctx exc self])%list self1
    else self1 in
  match exit_fault ctx exc self with
  | Some e => (Raised e, self2)
  | None => (Returned false, self2)
  end.
Proof.
  unfold __exit__, bind, perf_counter, exit_fault, exit_call, status_of.
  rewrite record_eq. simpl.
  destruct (_emit_each self); [|reflexivity].
  unfold logger_log. simpl.
  now destruct (logger_fault _ _).
Qed.

Lemma exit_records (ctx : _TaskContext) (exc : option pyexc)
  (self : TimeTracker) :
  _records (snd (__exit__ ctx exc self)) =
  setdefault_append (_task ctx)
    (elapsed_of (_t0 ctx) (clock (ticks self))) (_records self).
Proof.
  rewrite exit_eq. simpl.
  destruct (exit_fault ctx exc self), (_emit_each self); reflexivity.
Qed.

Lemma elapsed_of_ok (t0 : option float) (t1 : float) :
  sample_ok (elapsed_of t0 t1).
Proof. apply py_max2_zero_ok. Qed.

(** [__exit__] keeps the invariant of the store. *)
Lemma exit_store_ok (ctx : _TaskContext) (exc : option pyexc)
  (self : TimeTracker) :
  store_ok (_records self) ->
  store_ok (_records (snd (__exit__ ctx exc self))).
Proof.
  intros H. rewrite exit_records.
  apply setdefault_append_ok; auto using elapsed_of_ok.
Qed.

Lemma series_appended (name : string) (x : float) (r : records) :
  lookup name (setdefault_append name x r) =
  Some (match lookup name r with Some d => d | None => [] end ++ [x])%list.
Proof. now rewrite lookup_setdefault_append, String.eqb_refl. Qed.

(** ** Subtraction of a larger reading *)

Lemma digits2_pos_bounds (m : positive) :
  2 ^ (Zpos (digits2_pos m) - 1) <= Zpos m < 2 ^ Zpos (digits2_pos m).
Proof.
  induction m as [m IH|m IH|]; simpl digits2_pos.
  - rewrite Pos2Z.inj_succ.
    replace (Z.succ (Zpos (digits2_pos m)) - 1) with (Z.succ (Zpos (digits2_pos m) - 1)) by lia.
    rewrite !Z.pow_succ_r by lia. lia.
  - rewrite Pos2Z.inj_succ.
    replace (Z.succ (Zpos (digits2_pos m)) - 1) with (Z.succ (Zpos (digits2_pos m) - 1)) by lia.
    rewrite !Z.pow_succ_r by lia. lia.
  - simpl. lia.
Qed.

Lemma iter_xO (d m : positive) : Zpos (Pos.iter xO m d) = Zpos m * 2 ^ Zpos d.
Proof.
  induction d as [|d IH] using Pos.peano_ind.
  - simpl. lia.
  - rewrite Pos.iter_succ, Pos2Z.inj_succ, Z.pow_succ_r by lia.
    rewrite Pos2Z.inj_xO, IH. lia.
Qed.

Lemma shl_align_value (m : positive) (e ez : Z) :
  ez <= e -> Zpos (fst (shl_align m e ez)) = Zpos m * 2 ^ (e - ez).
Proof.
  intros H. unfold shl_align.
  destruct (ez - e) as [|d|d] eqn:E; simpl fst; try lia.
  - replace (e - ez) with 0 by lia. lia.
  - rewrite iter_xO. f_equal. f_equal. lia.
Qed.

Lemma binary_round_aux_sign (s : bool) (m e : Z) (l : location) :
  match binary_round_aux prec emax s m e l with
  | S754_zero s' | S754_infinity s' | S754_finite s' _ _ => s' = s
  | S754_nan => True
  end.
Proof.
  unfold binary_round_aux.
  destruct (shr_fexp prec emax m e l) as [mrs e'].
  destruct (shr_fexp prec emax _ e' loc_Exact) as [mrs' e''].
  destruct (shr_m mrs'); auto.
  destruct (e'' <=? emax - prec); auto.
Qed.

Lemma binary_normalize_not_pos (n e : Z) :
  n <= 0 -> flt zero (binary_normalize prec emax n e false) = false.
Proof.
  intros Hn. destruct n as [|p|p]; try lia; [reflexivity|].
  unfold binary_normalize, binary_round.
  destruct (shl_align _ _ _) as [mz ez].
  pose proof (binary_round_aux_sign true (Zpos mz) ez loc_Exact) as H.
  destruct (binary_round_aux _ _ _ _ _ _) as [s|s| |s m' e']; subst; reflexivity.
Qed.

Lemma bounded_digits (m : positive) (e : Z) :
  bounded prec emax m e = true ->
  Zpos (digits2_pos m) <= prec /\ emin prec emax <= e /\
  (emin prec emax < e -> Zpos (digits2_pos m) = prec).
Proof.
  unfold bounded, canonical_mantissa, fexp.
  intros H. apply andb_prop in H as [H _]. apply Z.eqb_eq in H. lia.
Qed.

(** On well-formed floats of one sign, the order of the pairs of exponent
    and mantissa is the order of the values. *)
Lemma aligned_lt (m1 m2 : positive) (e1 e2 : Z) :
  bounded prec emax m1 e1 = true -> bounded prec emax m2 e2 = true ->
  e1 < e2 \/ e1 = e2 /\ (m1 < m2)%positive ->
  Zpos m1 * 2 ^ (e1 - Z.min e1 e2) < Zpos m2 * 2 ^ (e2 - Z.min e1 e2).
Proof.
  intros B1 B2 [Hlt|[-> Hlt]].
  - apply bounded_digits in B1 as (D1 & E1 & _).
    apply bounded_digits in B2 as (_ & _ & D2).
    rewrite Z.min_l by lia. rewrite Z.sub_diag, Z.mul_1_r.
    pose proof (digits2_pos_bounds m1) as [_ U1].
    pose proof (digits2_pos_bounds m2) as [L2 _].
    rewrite D2 in L2 by lia.
    assert (2 ^ Zpos (digits2_pos m1) <= 2 ^ prec) by (apply Z.pow_le_mono_r; lia).
    assert (2 ^ 1 <= 2 ^ (e2 - e1)) by (apply Z.pow_le_mono_r; lia).
    assert (2 ^ prec = 2 ^ (prec - 1) * 2 ^ 1) by (rewrite <- Z.pow_add_r; unfold prec; try lia; reflexivity).
    nia.
  - rewrite Z.min_id, Z.sub_diag. lia.
Qed.

Lemma fsub_larger (t1 t0 : float) :
  valid t1 = true -> valid t0 = true -> flt t1 t0 = true ->
  flt zero (fsub t1 t0) = false.
Proof.
  unfold valid, valid_binary.
  destruct t1 as [[]|[]| |s1 m1 e1], t0 as [[]|[]| |s0 m0 e0];
    try reflexivity; try discriminate.
  1-2: destruct s0; try reflexivity; discriminate.
  1-2: destruct s1; try reflexivity; discriminate.
  intros B1 B0 H. unfold fsub, SFsub.
  apply binary_normalize_not_pos.
  rewrite !shl_align_value by lia.
  unfold flt, SFltb, SFcompare in H.
  destruct s1, s0; unfold cond_Zopp; try discriminate.
  - assert (Zpos m0 * 2 ^ (e0 - Z.min e0 e1) < Zpos m1 * 2 ^ (e1 - Z.min e0 e1)).
    { apply aligned_lt; auto. revert H. float_cases. }
    rewrite (Z.min_comm e1 e0). lia.
  - assert (0 < 2 ^ (e1 - Z.min e1 e0)) by (apply Z.pow_pos_nonneg; lia).
    assert (0 < 2 ^ (e0 - Z.min e1 e0)) by (apply Z.pow_pos_nonneg; lia).
    nia.
  - assert (Zpos m1 * 2 ^ (e1 - Z.min e1 e0) < Zpos m0 * 2 ^ (e0 - Z.min e1 e0)).
    { apply aligned_lt; auto. revert H. float_cases. }
    lia.
Qed.

(** C3.  On release, a timer started at the reading [t0] and released at the
    reading [t1] appends [max(0.0, t1 - t0)] to the series of its task: the
    difference when it is positive and [0.0] otherwise.  The appended sample
    is [>= 0.0] for every pair of readings, and it is [0.0] when the end
    reading is smaller than the start reading.  The event emitted when
    [emit_each] is on carries the same value. *)
Theorem exit_elapsed_clamped (name level_name : string) (t0 : float)
  (exc : option pyexc) (self : TimeTracker) :
  let t1 := clock (ticks self) in
  let x := py_max2 zero (fsub t1 t0) in
  let self' := snd (__exit__ (mk_ctx name level_name (Some t0)) exc self) in
  series name self' = (series name self ++ [x])%list /\
  x = (if flt zero (fsub t1 t0) then fsub t1 t0 else zero) /\
  fle zero x = true /\
  (valid t0 = true -> valid t1 = true -> flt t1 t0 = true -> x = zero) /\
  (_emit_each self = true ->
   exists c,
     logged self' = (logged self ++ [c])%list /\
     In ("elapsed_s", LFloat x) (call_extra c)).
Proof.
  intros t1 x self'. repeat split.
  - unfold self', series. rewrite exit_records. simpl _task.
    now rewrite series_appended.
  - apply py_max2_zero_ok.
  - intros V0 V1 H. unfold x, py_max2.
    now rewrite fsub_larger.
  - intros He. unfold self'. rewrite exit_eq. cbv zeta. rewrite He.
    eexists. split.
    + destruct (exit_fault _ _ _); reflexivity.
    + simpl. auto.
Qed.

(** ** The guarded block *)

Lemma entry_points_ctx :
  Forall (fun ep => exists level_name, forall t, ep t = _ctx t level_name)
    entry_points.
Proof. repeat constructor; eexists; intros t; reflexivity. Qed.

Lemma with_eq (s level_name : string) (body : M unit) (self : TimeTracker) :
  Str.strip s <> "" ->
  with_ (_ctx (PyStr s) level_name) body self =
  let ctx := mk_ctx (Str.strip s) level_name (Some (clock (ticks self))) in
  match body (set_ticks (S (ticks self)) self) with
  | (Returned _, self1) =>
      match __exit__ ctx None self1 with
      | (Returned _, self2) => (Returned tt, self2)
      | (Raised e', self2) => (Raised e', self2)
      end
  | (Raised e, self1) =>
      match __exit__ ctx (Some e) self1 with
      | (Returned b, self2) =>
          if b then (Returned tt, self2) else (Raised e, self2)
      | (Raised e', self2) => (Raised e', self2)
      end
  end.
Proof.
  intros Hs. unfold with_, _ctx, bind at 1.
  destruct (String.eqb_spec (Str.strip s) "") as [E|_]; [contradiction|].
  unfold ret at 1, bind at 1, __enter__, bind at 1, perf_counter at 1, ret at 1.
  simpl.
  destruct (body _) as [[u|e] self1]; unfold bind;
    destruct (__exit__ _ _ self1) as [[b|e'] self2]; try reflexivity.
  now destruct b.
Qed.

(** C2, as the code has it.  When the guarded block of a timer raises [e],
    the [with] statement raises as well (the release suppresses nothing),
    and the sample of the invocation is appended to the series of the task
    before that.  What is raised is [e] itself unless the release's own
    emission (made when [emit_each] is on) fails in the logger; then the
    logger's exception is raised. *)
Theorem with_error_propagates (s level_name : string) (body : M unit)
  (self self1 : TimeTracker) (e : pyexc) :
  Str.strip s <> "" ->
  body (set_ticks (S (ticks self)) self) = (Raised e, self1) ->
  let name := Str.strip s in
  let ctx := mk_ctx name level_name (Some (clock (ticks self))) in
  let x := elapsed_of (Some (clock (ticks self))) (clock (ticks self1)) in
  exists e' self2,
    with_ (_ctx (PyStr s) level_name) body self = (Raised e', self2) /\
    series name self2 = (series name self1 ++ [x])%list /\
    e' = match exit_fault ctx (Some e) self1 with
         | Some ex => ex
         | None => e
         end.
Proof.
  intros Hs Hbody name ctx x.
  rewrite with_eq by assumption. cbv zeta. rewrite Hbody.
  fold name. fold ctx.
  pose proof (exit_records ctx (Some e) self1) as Hrec.
  pose proof (exit_eq ctx (Some e) self1) as Hex. cbv zeta in Hex.
  assert (Hser : series name (snd (__exit__ ctx (Some e) self1)) =
                 (series name self1 ++ [x])%list).
  { unfold series. rewrite Hrec. simpl _task. now rewrite series_appended. }
  destruct (exit_fault ctx (Some e) self1) as [ex|];
    rewrite Hex in Hser |- *; simpl snd in Hser;
    eexists; eexists; (split; [reflexivity|]); split; auto.
Qed.

(** ** Task names *)

Lemma lstrip_all_space (s : string) :
  all_space s = true -> Str.lstrip s = "".
Proof.
  induction s as [|c s IH]; simpl; [reflexivity|].
  intros H. apply andb_prop in H as [-> H]. auto.
Qed.

Lemma strip_all_space (s : string) : all_space s = true -> Str.strip s = "".
Proof. intros H. unfold Str.strip. now rewrite lstrip_all_space. Qed.

(** C7.  Each of the seven entry points rejects a task name that is empty or
    made of whitespace only with a [ValueError], and leaves the tracker as
    it was: no sample, no clock reading, nothing sent to the logger.  A
    [with] statement on such a timer raises before its block runs. *)
Theorem blank_task_rejected (ep : pyval -> M _TaskContext) (s : string)
  (self : TimeTracker) (body : M unit) :
  In ep entry_points ->
  all_space s = true ->
  ep (PyStr s) self =
    (Raised (ValueError "task name must be a non-empty string"), self) /\
  with_ (ep (PyStr s)) body self =
    (Raised (ValueError "task name must be a non-empty string"), self).
Proof.
  intros Hep Hs.
  pose proof entry_points_ctx as H. rewrite Forall_forall in H.
  destruct (H ep Hep) as [level_name Heq].
  assert (E : ep (PyStr s) self =
    (Raised (ValueError "task name must be a non-empty string"), self)).
  { rewrite Heq. unfold _ctx. now rewrite strip_all_space. }
  split; [exact E|].
  unfold with_, bind at 1. now rewrite E.
Qed.

(** ** Sorting *)

Section Sorting.

Context {A : Type}.
Variable lt : A -> A -> bool.
Hypothesis lt_trans : forall a b c, lt a b = true -> lt b c = true -> lt a c = true.
Hypothesis lt_irrefl : forall a, lt a a = false.

Lemma insert_perm (x : A) (l : list A) : Permutation (insert lt x l) (x :: l).
Proof.
  induction l as [|y l IH]; simpl; [reflexivity|].
  destruct (lt x y); [reflexivity|].
  rewrite IH. apply perm_swap.
Qed.

Lemma fold_insert_perm (l acc : list A) :
  Permutation (fold_left (fun acc x => insert lt x acc) l acc) (acc ++ l).
Proof.
  revert acc. induction l as [|x l IH]; intros acc; simpl.
  - now rewrite app_nil_r.
  - rewrite IH, insert_perm. apply Permutation_middle.
Qed.

Lemma stable_sort_perm (l : list A) : Permutation (stable_sort lt l) l.
Proof. apply fold_insert_perm. Qed.

Lemma insert_sorted (x : A) (l : list A) :
  StronglySorted (not_above lt) l -> StronglySorted (not_above lt) (insert lt x l).
Proof.
  induction 1 as [|y l Hs IH Hy]; simpl.
  - repeat constructor.
  - destruct (lt x y) eqn:E.
    + constructor; [now constructor|].
      assert (Hyx : lt y x = false).
      { destruct (lt y x) eqn:E'; [|reflexivity].
        rewrite <- (lt_irrefl x). symmetry. eauto. }
      constructor; [exact Hyx|].
      rewrite Forall_forall in *. intros z Hz. unfold not_above in *.
      destruct (lt z x) eqn:E'; [|reflexivity].
      rewrite <- (Hy z Hz). symmetry. eauto.
    + constructor; [assumption|].
      rewrite Forall_forall in *. intros z Hz.
      apply (Permutation_in _ (insert_perm x l)) in Hz.
      destruct Hz as [<-|Hz]; [exact E|auto].
Qed.

Lemma stable_sort_sorted (l : list A) :
  StronglySorted (not_above lt) (stable_sort lt l).
Proof.
  unfold stable_sort.
  assert (H : forall acc, StronglySorted (not_above lt) acc ->
    StronglySorted (not_above lt) (fold_left (fun acc x => insert lt x acc) l acc)).
  { induction l as [|x l IH]; intros acc Hacc; simpl; auto using insert_sorted. }
  apply H. constructor.
Qed.

Lemma sorted_snoc (R : A -> A -> Prop) (l : list A) (x : A) :
  StronglySorted R l -> Forall (fun y => R y x) l ->
  StronglySorted R (l ++ [x]).
Proof.
  induction 1 as [|y l Hs IH Hy]; intros Hx; simpl.
  - repeat constructor.
  - inversion Hx; subst. constructor; [auto|].
    apply Forall_app. split; [assumption|]. now constructor.
Qed.

Lemma sorted_rev (l : list A) :
  StronglySorted (not_above lt) l -> StronglySorted (not_below lt) (rev l).
Proof.
  induction 1 as [|y l Hs IH Hy]; simpl; [constructor|].
  apply sorted_snoc; [assumption|].
  apply Forall_rev. exact Hy.
Qed.

End Sorting.

Lemma string_lt_trans (a b c : string) :
  Str.lt a b = true -> Str.lt b c = true -> Str.lt a c = true.
Proof.
  unfold Str.lt, String.ltb. revert b c.
  induction a as [|x a IH]; intros [|y b] [|z c]; simpl; try discriminate;
    try reflexivity.
  unfold Ascii.compare.
  destruct (N.compare_spec (N_of_ascii x) (N_of_ascii y)) as [E1|L1|G1];
    try discriminate;
    destruct (N.compare_spec (N_of_ascii y) (N_of_ascii z)) as [E2|L2|G2];
    try discriminate; intros H1 H2.
  - rewrite E1, E2, N.compare_refl. eauto.
  - rewrite E1. now apply N.compare_lt_iff in L2 as ->.
  - rewrite <- E2. now apply N.compare_lt_iff in L1 as ->.
  - assert (L : (N_of_ascii x < N_of_ascii z)%N) by lia.
    now apply N.compare_lt_iff in L as ->.
Qed.

Lemma string_lt_irrefl (a : string) : Str.lt a a = false.
Proof.
  unfold Str.lt, String.ltb.
  induction a as [|x a IH]; simpl; [reflexivity|].
  unfold Ascii.compare. now rewrite N.compare_refl.
Qed.

Lemma key_lt_trans (a b c : sort_key) :
  key_lt a b = true -> key_lt b c = true -> key_lt a c = true.
Proof.
  destruct a, b, c; simpl; try discriminate.
  - apply flt_trans.
  - lia.
  - apply string_lt_trans.
Qed.

Lemma key_lt_irrefl (a : sort_key) : key_lt a a = false.
Proof.
  destruct a; simpl; auto using flt_irrefl, string_lt_irrefl.
  apply Z.ltb_irrefl.
Qed.

(** [list.sort] rearranges the list, and orders it by the key in the
    direction asked for: ascending, no row stands before a row with a
    smaller key; with [reverse], none stands before a row with a greater
    key. *)
Lemma list_sort_perm {A : Type} (key : A -> sort_key) (reverse : bool)
  (l : list A) :
  Permutation (list_sort key reverse l) l.
Proof.
  unfold list_sort. destruct reverse.
  - rewrite <- Permutation_rev, stable_sort_perm. symmetry.
    apply Permutation_rev.
  - apply stable_sort_perm.
Qed.

Lemma list_sort_sorted {A : Type} (key : A -> sort_key) (reverse : bool)
  (l : list A) :
  StronglySorted (key_order key reverse) (list_sort key reverse l).
Proof.
  unfold list_sort, key_order.
  pose (lt := fun a b => key_lt (key a) (key b)).
  assert (Ht : forall a b c, lt a b = true -> lt b c = true -> lt a c = true).
  { intros a b c. apply key_lt_trans. }
  assert (Hi : forall a, lt a a = false).
  { intros a. apply key_lt_irrefl. }
  destruct reverse.
  - apply (sorted_rev lt). now apply stable_sort_sorted.
  - now apply (stable_sort_sorted lt).
Qed.

(** ** Rendering *)

Lemma append_assoc (a b c : string) : ((a ++ b) ++ c = a ++ (b ++ c))%string.
Proof. induction a as [|x a IH]; simpl; [reflexivity|now rewrite IH]. Qed.

Lemma join_snoc (sep x : string) (l : list string) :
  l <> [] ->
  Str.join sep (l ++ [x])%list = Str.join sep l ++ sep ++ x.
Proof.
  unfold Str.join.
  induction l as [|y l IH]; [congruence|]. intros _.
  destruct l as [|z l]; [reflexivity|].
  change (y ++ sep ++ String.concat sep ((z :: l) ++ [x])%list =
          (y ++ sep ++ String.concat sep (z :: l)) ++ sep ++ x).
  rewrite IH by discriminate.
  now rewrite !append_assoc.
Qed.

(** Without rows the table is the title, the rule and [(no data)]. *)
Lemma render_no_data (self : TimeTracker) (title : string) :
  _render_summary self [] title = no_data title.
Proof. reflexivity. Qed.

(** With rows, the table has one row per record, in the order of the
    records, and its last line is the total of those records. *)
Lemma render_rows (self : TimeTracker) (stats : list TaskStats)
  (title : string) :
  stats <> [] ->
  _render_summary self stats title =
  Str.join Str.newline (table_head self stats title)
  ++ Str.newline ++ total_row self (py_sum (map total_s stats)).
Proof.
  intros H. destruct stats as [|s stats]; [congruence|].
  unfold _render_summary, table_head.
  rewrite <- join_snoc by discriminate.
  reflexivity.
Qed.

(** ** Summary *)

Lemma summary_eq (sort_by : pyval) (descending : bool) (limit : option Z)
  (reset : bool) (title : string) (self : TimeTracker) :
  summary sort_by descending limit reset title self =
  match key_func sort_by with
  | None => (Raised sort_by_error, self)
  | Some key =>
      let rendered :=
        _render_summary self (shown key descending limit self) title in
      let call := summary_call self rendered in
      let self1 := set_logged (logged self ++ [call])%list self in
      match logger_fault (logged self) call with
      | Some e => (Raised e, self1)
      | None =>
          (Returned rendered, if reset then set_records [] self1 else self1)
      end
  end.
Proof.
  unfold summary, bind at 1, get.
  destruct (key_func sort_by) as [key|]; [|reflexivity].
  unfold bind, logger_log, shown. cbv zeta.
  destruct (logger_fault _ _); [reflexivity|].
  now destruct reset.
Qed.

Lemma take_limit_firstn {A : Type} (n : Z) (l : list A) :
  take_limit (Some n) l = firstn (Z.to_nat n) l.
Proof. unfold take_limit. f_equal. lia. Qed.

(** What a [summary] with a recognized key sends and returns. *)
Lemma summary_result (sort_by : pyval) (key : TaskStats -> sort_key)
  (descending : bool) (limit : option Z) (reset : bool) (title : string)
  (self : TimeTracker) :
  key_func sort_by = Some key ->
  let rendered := _render_summary self (shown key descending limit self) title in
  let call := summary_call self rendered in
  let result := summary sort_by descending limit reset title self in
  logged (snd result) = (logged self ++ [call])%list /\
  fst result = match logger_fault (logged self) call with
               | Some e => Raised e
               | None => Returned rendered
               end.
Proof.
  intros Hkey rendered call result.
  unfold result. rewrite summary_eq, Hkey. cbv zeta.
  fold rendered. fold call.
  destruct (logger_fault (logged self) call); simpl; [now split|].
  destruct reset; now split.
Qed.

Lemma shown_empty (key : TaskStats -> sort_key) (descending : bool)
  (limit : option Z) (self : TimeTracker) :
  _records self = [] -> shown key descending limit self = [].
Proof.
  intros H. unfold shown, _compute_stats. rewrite H. simpl stats_of_items.
  replace (list_sort key descending []) with (@nil TaskStats)
    by now destruct descending.
  destruct limit as [n|]; [|reflexivity].
  rewrite take_limit_firstn. apply firstn_nil.
Qed.

Lemma key_func_none (sort_by : pyval) :
  key_func sort_by = None <-> ~ In sort_by (map PyStr sort_keys).
Proof.
  unfold key_func, sort_keys, key_funcs. simpl.
  destruct sort_by as [b|n|s]; simpl.
  1-2: split; [intros _ H; intuition discriminate|reflexivity].
  repeat match goal with
  | |- context [String.eqb s ?k] => destruct (String.eqb_spec s k)
  end; subst; simpl; split; try discriminate; try tauto; try reflexivity.
  intros _ H. intuition congruence.
Qed.

(** C8.  For a [sort_by] outside the recognized keys, [summary] raises a
    [ValueError] and leaves the tracker as it was: nothing is sent to the
    logger and the store is unchanged. *)
Theorem summary_rejects_sort_by (sort_by : pyval) (descending : bool)
  (limit : option Z) (reset : bool) (title : string) (self : TimeTracker) :
  ~ In sort_by (map PyStr ["total"; "avg"; "count"; "max"; "min"; "task"]) ->
  summary sort_by descending limit reset title self =
    (Raised (ValueError
       "sort_by must be one of: total, avg, count, max, min, task"), self).
Proof.
  intros H. apply key_func_none in H.
  now rewrite summary_eq, H.
Qed.

Lemma key_func_some (sort_by : pyval) (key : TaskStats -> sort_key) :
  key_func sort_by = Some key ->
  exists name, sort_by = PyStr name /\ In name sort_keys.
Proof.
  intros Hkey. destruct sort_by as [b|n|s]; try discriminate.
  exists s. split; [reflexivity|].
  destruct (in_dec string_dec s sort_keys) as [Hin|Hout]; [exact Hin|].
  assert (H : key_func (PyStr s) = None).
  { apply key_func_none. intros H. apply in_map_iff in H.
    destruct H as (name & [= ->] & Hin). now apply Hout. }
  congruence.
Qed.

(** C5.  On records none of whose keys is a NaN, [summary] orders the
    records by the requested key in the requested direction, then keeps the
    first [limit] of them when a limit is given; a limit [<= 0] keeps none,
    which renders the [(no data)] table and is no error.  The key is the
    statistic that [sort_by] names: the total, the average, the count, the
    maximum or the minimum of the task, or its name in lower case.  The
    rendered text is what is sent to the logger and what is returned.  Its
    last line is the total over the records rendered.  For the tasks A
    (5 s), B (1 s) and C (3 s) ordered by descending total the rows are A,
    C, B and the total line shows 9; with limit 2 the rows are A, C (and
    the total line, over these two, shows 8). *)
Theorem summary_sorted_limited (sort_by : pyval)
  (key : TaskStats -> sort_key) (descending : bool) (limit : option Z)
  (reset : bool) (title : string) (self : TimeTracker) :
  key_func sort_by = Some key ->
  Forall (fun s => key_nan (key s) = false) (_compute_stats self) ->
  let sorted := list_sort key descending (_compute_stats self) in
  let rows := take_limit limit sorted in
  let rendered := _render_summary self rows title in
  let call := summary_call self rendered in
  let result := summary sort_by descending limit reset title self in
  (Permutation sorted (_compute_stats self) /\
   StronglySorted (key_order key descending) sorted) /\
  ((exists name, sort_by = PyStr name /\ In name sort_keys) /\
   (sort_by = PyStr "total" -> forall s, key s = KFloat (total_s s)) /\
   (sort_by = PyStr "avg" -> forall s, key s = KFloat (avg_s s)) /\
   (sort_by = PyStr "count" -> forall s, key s = KInt (count s)) /\
   (sort_by = PyStr "max" -> forall s, key s = KFloat (max_s s)) /\
   (sort_by = PyStr "min" -> forall s, key s = KFloat (min_s s)) /\
   (sort_by = PyStr "task" ->
    forall s, key s = KStr (Str.lower (task s)))) /\
  rows = match limit with
         | Some n => firstn (Z.to_nat n) sorted
         | None => sorted
         end /\
  (forall n, limit = Some n -> n <= 0 ->
     rows = [] /\ rendered = no_data title) /\
  (logged (snd result) = (logged self ++ [call])%list /\
   fst result = match logger_fault (logged self) call with
                | Some e => Raised e
                | None => Returned rendered
                end) /\
  (rows <> [] ->
   rendered =
     Str.join Str.newline (table_head self rows title)
     ++ Str.newline ++ total_row self (py_sum (map total_s rows))) /\
  (forall total, key_func (PyStr "total") = Some total ->
     map task (shown total true None abc) = ["A"; "C"; "B"] /\
     total_row abc (py_sum (map total_s (shown total true None abc))) =
       "TOTAL (all tasks)                            9.000000 s" /\
     map task (shown total true (Some 2) abc) = ["A"; "C"] /\
     total_row abc (py_sum (map total_s (shown total true (Some 2) abc))) =
       "TOTAL (all tasks)                            8.000000 s").
Proof.
  intros Hkey _ sorted rows rendered call result.
  split; [split; [apply list_sort_perm|apply list_sort_sorted]|].
  split.
  { split.
    - destruct (key_func_some sort_by key Hkey) as (name & -> & Hin).
      exists name. split; [reflexivity|exact Hin].
    - repeat split; intros -> s; injection Hkey as <-; reflexivity. }
  split.
  { unfold rows. destruct limit; [apply take_limit_firstn|reflexivity]. }
  split.
  { intros n -> Hn.
    assert (E : rows = []).
    { unfold rows. rewrite take_limit_firstn.
      replace (Z.to_nat n) with O by lia. reflexivity. }
    split; [exact E|]. unfold rendered. now rewrite E. }
  split.
  { apply (summary_result sort_by key descending limit reset title self Hkey). }
  split.
  { apply render_rows. }
  intros total Htotal. injection Htotal as <-.
  repeat split; vm_compute; reflexivity.
Qed.

(** C6.  A [summary] with [reset] that returns has rendered the store as it
    was before the reset: the text returned, which is also the text sent to
    the logger, is the table of the records of the tracker the call
    started from, and the store is empty afterwards.  A following
    [summary] on that tracker renders the [(no data)] table. *)
Theorem summary_reset_after_render (sort_by : pyval) (descending : bool)
  (limit : option Z) (title rendered : string) (self self' : TimeTracker) :
  summary sort_by descending limit true title self = (Returned rendered, self') ->
  (exists key,
     key_func sort_by = Some key /\
     rendered = _render_summary self (shown key descending limit self) title /\
     logged self' = (logged self ++ [summary_call self rendered])%list) /\
  _records self' = [] /\
  config self' = config self /\
  forall sort_by2 key2 descending2 limit2 reset2 title2,
    key_func sort_by2 = Some key2 ->
    let call2 := summary_call self' (no_data title2) in
    let result2 := summary sort_by2 descending2 limit2 reset2 title2 self' in
    logged (snd result2) = (logged self' ++ [call2])%list /\
    fst result2 = match logger_fault (logged self') call2 with
                  | Some e => Raised e
                  | None => Returned (no_data title2)
                  end.
Proof.
  rewrite summary_eq.
  destruct (key_func sort_by) as [key|]; [|discriminate]. cbv zeta.
  destruct (logger_fault _ _); [discriminate|].
  intros H. injection H as <- <-.
  split; [now exists key|].
  split; [reflexivity|]. split; [reflexivity|].
  intros sort_by2 key2 descending2 limit2 reset2 title2 Hkey2.
  match goal with
  | |- context [summary _ _ _ _ _ ?s] =>
      pose proof (summary_result sort_by2 key2 descending2 limit2 reset2
                    title2 s Hkey2) as H
  end.
  cbv zeta in H.
  rewrite (shown_empty key2 descending2 limit2) in H by reflexivity.
  exact H.
Qed.

(** ** Configuration *)

Lemma unit_ok_iff (time_unit : option pyval) :
  unit_ok time_unit = true <->
  time_unit = None \/ time_unit = Some (PyStr "ms")
  \/ time_unit = Some (PyStr "s").
Proof.
  destruct time_unit as [[b|n|s]|]; simpl.
  1-2: split; [discriminate|intuition discriminate].
  - destruct (String.eqb_spec s "ms") as [->|H1]; simpl; [tauto|].
    destruct (String.eqb_spec s "s") as [->|H2]; [tauto|].
    split; [discriminate|intuition congruence].
  - tauto.
Qed.

Lemma configure_eq (emit_each time_unit summary_level : option pyval)
  (self : TimeTracker) :
  configure emit_each time_unit summary_level self =
  if unit_ok time_unit then
    match level_fault summary_level with
    | Some e =>
        (Raised e, with_time_unit time_unit (with_emit_each emit_each self))
    | None =>
        let self' :=
          with_summary_level summary_level
            (with_time_unit time_unit (with_emit_each emit_each self)) in
        (Returned self', self')
    end
  else (Raised time_unit_error, with_emit_each emit_each self).
Proof.
  unfold configure, bind, modify, ret, get, raise, lift, level_fault,
    with_summary_level.
  destruct emit_each as [e|], time_unit as [u|]; simpl;
    try destruct (py_eq_str u "ms" || py_eq_str u "s"); simpl;
    destruct summary_level as [v|]; try destruct (py_str v); reflexivity.
Qed.

(** The digits of an int given by its decimal writing. *)
Lemma int_digits_of_uint (d : Decimal.uint) :
  int_digits (Z.of_uint d)
  = String.length (NilZero.string_of_uint (Decimal.unorm d)).
Proof.
  unfold int_digits, dec.
  rewrite Z.abs_eq by (unfold Z.of_uint; apply N2Z.is_nonneg).
  change (Z.of_uint d) with (Z.of_int (Decimal.Pos d)).
  rewrite DecimalZ.to_of. reflexivity.
Qed.

Lemma ten_power_4300_digits : int_digits ten_power_4300 = 4301%nat.
Proof.
  unfold ten_power_4300. rewrite int_digits_of_uint.
  vm_compute. reflexivity.
Qed.

Lemma ten_power_4300_value :
  ten_power_4300 = Nat.iter 4300 (Z.mul 10) 1.
Proof.
  exact (DecimalZ.of_int_iter_D0 (Decimal.Pos (Decimal.D1 Decimal.Nil)) 4300).
Qed.

(** [str] raises on the ints of too many digits only. *)
Lemma py_str_raises (v : pyval) (e : pyexc) :
  py_str v = Raised e <->
  e = int_str_error /\
  exists n, v = PyInt n /\ (int_max_str_digits < int_digits n)%nat.
Proof.
  destruct v as [[]|n|s]; simpl.
  1,2,4: split; [discriminate|intros (_ & n' & H & _); discriminate].
  destruct (Nat.ltb_spec int_max_str_digits (int_digits n)) as [H|H].
  - split.
    + intros [= <-]. split; [reflexivity|]. exists n. now split.
    + intros [-> _]. reflexivity.
  - split; [discriminate|].
    intros (_ & n' & [= <-] & H'). lia.
Qed.

Lemma level_fault_iff (summary_level : option pyval) (e : pyexc) :
  level_fault summary_level = Some e <->
  e = int_str_error /\
  exists n, summary_level = Some (PyInt n) /\
            (int_max_str_digits < int_digits n)%nat.
Proof.
  destruct summary_level as [v|]; cbn [level_fault].
  - destruct (py_str v) as [s|e'] eqn:E.
    + split; [discriminate|].
      intros (_ & n & [= ->] & H).
      assert (E' : py_str (PyInt n) = Raised int_str_error)
        by (apply py_str_raises; eauto).
      congruence.
    + split.
      * intros [= ->]. apply py_str_raises in E as (-> & n & -> & H).
        split; [reflexivity|]. exists n. now split.
      * intros (-> & n & [= ->] & H).
        assert (E' : py_str (PyInt n) = Raised int_str_error)
          by (apply py_str_raises; eauto).
        congruence.
  - split; [discriminate|]. intros (_ & n & H & _). discriminate.
Qed.

(** C4, as the code has it.  [configure] accepts a [time_unit] that is
    absent, ["ms"] or ["s"] and rejects any other with a [ValueError].  A
    rejected call leaves [time_unit] and [summary_level] as they were, and
    the whole tracker when it passes no [emit_each].  A call with an
    accepted [time_unit] assigns the fields passed and returns the tracker
    itself, unless [str(summary_level)] raises, which it does on an int of
    more than 4300 digits only: then the call raises that [ValueError] with
    [emit_each] and [time_unit] assigned and [summary_level] as it was. *)
Theorem configure_validates (emit_each time_unit summary_level : option pyval)
  (self : TimeTracker) :
  (unit_ok time_unit = true <->
   time_unit = None \/ time_unit = Some (PyStr "ms")
   \/ time_unit = Some (PyStr "s")) /\
  (unit_ok time_unit = false ->
   exists self',
     configure emit_each time_unit summary_level self =
       (Raised time_unit_error, self') /\
     _time_unit self' = _time_unit self /\
     _summary_level self' = _summary_level self /\
     (emit_each = None -> self' = self)) /\
  (unit_ok time_unit = true ->
   match level_fault summary_level with
   | None =>
       exists self',
         configure emit_each time_unit summary_level self =
           (Returned self', self') /\
         self' = with_summary_level summary_level
                   (with_time_unit time_unit (with_emit_each emit_each self))
   | Some e =>
       exists self',
         configure emit_each time_unit summary_level self = (Raised e, self') /\
         self' = with_time_unit time_unit (with_emit_each emit_each self) /\
         _summary_level self' = _summary_level self
   end) /\
  (forall e,
     level_fault summary_level = Some e <->
     e = int_str_error /\
     exists n, summary_level = Some (PyInt n) /\
               (int_max_str_digits < int_digits n)%nat).
Proof.
  split; [apply unit_ok_iff|].
  rewrite configure_eq.
  split; [|split].
  - intros ->. eexists. split; [reflexivity|].
    destruct emit_each; repeat split; intros; congruence.
  - intros ->. destruct (level_fault summary_level).
    + eexists. split; [reflexivity|]. split; [reflexivity|].
      destruct emit_each, time_unit; reflexivity.
    + eexists. split; reflexivity.
  - intros e. apply level_fault_iff.
Qed.

(** C10, as the code has it.  [configure] does not check [summary_level]
    against the levels of the logger: whether the call is rejected for its
    [time_unit] does not depend on it, and with an accepted [time_unit] the
    call returns whenever [str(summary_level)] does, storing that str:
    the value itself for a str, [True] or [False] for a bool, the decimal
    digits for an int of at most 4300 digits.  A later [summary] sends its
    table to the logger at that level, and raises exactly when the logger
    does, with the logger's exception.  The one value [configure] rejects
    is the int of more than 4300 digits, on which [str] raises. *)
Theorem summary_level_unvalidated (emit_each time_unit : option pyval)
  (v : pyval) (self : TimeTracker) :
  (unit_ok time_unit = false ->
   fst (configure emit_each time_unit (Some v) self) =
   fst (configure emit_each time_unit None self)) /\
  (py_str (PyBool true) = Returned "True" /\
   py_str (PyBool false) = Returned "False" /\
   (forall s, py_str (PyStr s) = Returned s) /\
   (forall n, (int_digits n <= int_max_str_digits)%nat ->
      py_str (PyInt n) = Returned (dec n)) /\
   (forall n, (int_max_str_digits < int_digits n)%nat ->
      py_str (PyInt n) = Raised int_str_error)) /\
  (forall level,
     unit_ok time_unit = true ->
     py_str v = Returned level ->
     exists self',
       configure emit_each time_unit (Some v) self = (Returned self', self') /\
       _summary_level self' = level /\
       forall sort_by key descending limit reset title,
         key_func sort_by = Some key ->
         let rendered :=
           _render_summary self' (shown key descending limit self') title in
         let call := summary_call self' rendered in
         let result := summary sort_by descending limit reset title self' in
         call_level call = level /\
         logged (snd result) = (logged self' ++ [call])%list /\
         fst result = match logger_fault (logged self') call with
                      | Some e => Raised e
                      | None => Returned rendered
                      end) /\
  (forall e,
     unit_ok time_unit = true ->
     py_str v = Raised e ->
     e = int_str_error /\
     configure emit_each time_unit (Some v) self =
       (Raised e, with_time_unit time_unit (with_emit_each emit_each self))).
Proof.
  rewrite !configure_eq.
  split; [intros ->; reflexivity|].
  split.
  { split; [reflexivity|]. split; [reflexivity|]. split; [reflexivity|].
    split; intros n Hn; cbn [py_str].
    - destruct (Nat.ltb_spec int_max_str_digits (int_digits n)); [lia|].
      reflexivity.
    - destruct (Nat.ltb_spec int_max_str_digits (int_digits n)); [|lia].
      reflexivity. }
  split.
  - intros level -> Hstr. cbn [level_fault with_summary_level].
    rewrite Hstr.
    eexists. split; [reflexivity|]. split; [reflexivity|].
    intros sort_by key descending limit reset title Hkey.
    split; [reflexivity|].
    apply (summary_result sort_by key descending limit reset title _ Hkey).
  - intros e -> Hstr. cbn [level_fault]. rewrite Hstr.
    split; [|reflexivity].
    apply (py_str_raises v e). exact Hstr.
Qed.

(** ** Units *)

(** C9.  A sample of 1.234 seconds is rendered as [1234.000 ms] once
    [time_unit] is configured to ["ms"], and as [1.234000 s] under the
    default unit.  The unit only matters to the rendering: what a release
    stores and the statistics computed do not depend on it, and
    [configure] does not touch the store. *)
Theorem fmt_time_units (self : TimeTracker) :
  (valid sample_1_234 = true /\
   sample_1_234 = fdiv (of_int 1234) (of_int 1000) /\
   Z.abs (1000 * 5557441940175192 - 1234 * 2 ^ 52) <= 500) /\
  (let self' := snd (configure None (Some (PyStr "ms")) None self) in
   _fmt_time self' sample_1_234 = "1234.000 ms") /\
  (_time_unit init = "s" /\
   _fmt_time (set_time_unit (_time_unit init) self) sample_1_234
   = "1.234000 s") /\
  (forall u ctx exc,
     _records (snd (__exit__ ctx exc (set_time_unit u self))) =
     _records (snd (__exit__ ctx exc self))) /\
  (forall u, _compute_stats (set_time_unit u self) = _compute_stats self) /\
  (forall emit_each time_unit summary_level,
     _records (snd (configure emit_each time_unit summary_level self)) =
     _records self).
Proof.
  split; [repeat split; vm_compute; congruence|].
  split; [reflexivity|].
  split; [split; reflexivity|].
  split; [intros; now rewrite !exit_records|].
  split; [reflexivity|].
  intros e u l. rewrite configure_eq.
  unfold level_fault, with_summary_level.
  destruct (unit_ok u), e, u, l as [v|]; try destruct (py_str v);
    reflexivity.
Qed.

(** ** Rounding of one addition *)

(** One more shift keeps the invariant. *)
Lemma shr_1_inv (N k : Z) (mrs : shr_record) :
  shr_inv N k mrs -> shr_inv N (k + 1) (shr_1 mrs).
Proof.
  intros (Hk & Hm & low & Hlow & HN & Hs).
  destruct mrs as [m r s]. cbn [shr_m shr_r shr_s] in *.
  assert (P1 : 2 ^ (k + 1) = 2 * 2 ^ k) by (rewrite Z.pow_add_r; lia).
  assert (P2 : 2 ^ (k + 1 + 1) = 4 * 2 ^ k) by (rewrite !Z.pow_add_r; lia).
  assert (P0 : 0 < 2 ^ k) by (apply Z.pow_pos_nonneg; lia).
  split; [lia|].
  destruct m as [|[p|p|]|p]; cbn [shr_1 shr_m shr_r shr_s orb] in *; try lia;
    (split; [lia|]);
    exists ((if r then 2 ^ k else 0) + low);
    (split; [destruct r; lia|]);
    (split; [rewrite ?P2, ?P1; rewrite ?P1 in HN; destruct r; lia|]);
    destruct r, s; cbn [orb]; split; intros; try lia; try reflexivity;
    try (exfalso; intuition lia); intuition congruence.
Qed.

(** So do [p] shifts. *)
Lemma iter_shr_inv (N : Z) (p : positive) :
  forall k mrs, shr_inv N k mrs -> shr_inv N (k + Zpos p) (iter_pos shr_1 p mrs).
Proof.
  induction p as [p IH|p IH|]; intros k mrs H; simpl iter_pos.
  - replace (k + Zpos p~1) with (k + 1 + Zpos p + Zpos p) by lia.
    apply IH, IH. now apply shr_1_inv.
  - replace (k + Zpos p~0) with (k + Zpos p + Zpos p) by lia.
    now apply IH, IH.
  - now apply shr_1_inv.
Qed.

(** Before any shift nothing is lost. *)
Lemma shr_inv_start (m : Z) :
  0 <= m -> shr_inv m 0 (Build_shr_record m false false).
Proof.
  intros H. split; [lia|]. split; [exact H|].
  exists 0. cbn [shr_m shr_r shr_s].
  change (2 ^ 0) with 1. change (2 ^ (0 + 1)) with 2.
  split; [lia|]. split; [lia|]. split; [discriminate|lia].
Qed.

(** The rounded mantissa is within half a unit of the exact quotient. *)
Lemma round_nearest_even_error (N k : Z) (mrs : shr_record) :
  shr_inv N k mrs ->
  let m' := round_nearest_even (shr_m mrs) (loc_of_shr_record mrs) in
  0 <= m' /\ - 2 ^ k <= 2 * N - m' * 2 ^ (k + 1) <= 2 ^ k.
Proof.
  intros (Hk & Hm & low & Hlow & HN & Hs).
  destruct mrs as [m r s]. cbn [shr_m shr_r shr_s] in *.
  assert (P1 : 2 ^ (k + 1) = 2 * 2 ^ k) by (rewrite Z.pow_add_r; lia).
  rewrite P1 in *.
  assert (Hs' : s = false -> low = 0).
  { intros ->. destruct (Z.eq_dec low 0); [assumption|]. apply Hs in n. discriminate. }
  destruct r, s; cbn [loc_of_shr_record round_nearest_even]; try destruct (Z.even m);
    try specialize (Hs' eq_refl); subst; split; try lia.
Qed.

(** The number of binary digits is determined by the powers of two around
    the number. *)
Lemma digits2_pos_unique (m : positive) (j : Z) :
  2 ^ (j - 1) <= Zpos m < 2 ^ j -> Zpos (digits2_pos m) = j.
Proof.
  intros [L U].
  pose proof (digits2_pos_bounds m) as [L' U'].
  assert (0 < j).
  { destruct (Z.lt_ge_cases 0 j); [assumption|].
    destruct (Z.eq_dec j 0) as [->|]; [simpl in U; lia|].
    rewrite Z.pow_neg_r in U by lia. lia. }
  assert (Zpos (digits2_pos m) - 1 < j).
  { apply (Z.pow_lt_mono_r_iff 2); lia. }
  assert (j - 1 < Zpos (digits2_pos m)).
  { apply (Z.pow_lt_mono_r_iff 2); lia. }
  lia.
Qed.

(** Rounding a positive mantissa at an exponent in range gives +inf or a
    float of a higher or equal exponent, within a relative error of 2^-53. *)
Lemma binary_round_aux_error (m : positive) (e : Z) :
  emin prec emax <= e ->
  match binary_round_aux prec emax false (Zpos m) e loc_Exact with
  | S754_finite s m' e' =>
      s = false /\ e <= e' /\
      Z.abs (Zpos m' * 2 ^ (e' - e) - Zpos m) * two_53 <= Zpos m
  | S754_infinity s => s = false
  | _ => False
  end.
Proof.
  intros He.
  unfold binary_round_aux, shr_fexp.
  cbn [Zdigits2 shr_record_of_loc].
  set (d := Zpos (digits2_pos m)).
  pose proof (digits2_pos_bounds m) as Hd. fold d in Hd.
  unfold fexp at 1.
  destruct (Z.max (d + e - prec) (emin prec emax) - e) as [|n|n] eqn:En.
  1,3: unfold shr at 1; cbn [shr_m loc_of_shr_record round_nearest_even];
       cbn [Zdigits2]; fold d; unfold fexp; rewrite En; unfold shr;
       cbn [shr_m];
       destruct (e <=? emax - prec); [|reflexivity];
       (split; [reflexivity|]); (split; [lia|]);
       rewrite Z.sub_diag; change (2 ^ 0) with 1;
       rewrite Z.mul_1_r, Z.sub_diag; simpl; lia.
  assert (Hn : Zpos n = d - 53) by (unfold emin, prec, emax in *; lia).
  unfold shr at 1.
  pose proof (iter_shr_inv (Zpos m) n 0 _ (shr_inv_start (Zpos m) ltac:(lia)))
    as Hinv.
  rewrite Z.add_0_l in Hinv.
  set (mrs' := iter_pos shr_1 n _) in *.
  pose proof (round_nearest_even_error _ _ _ Hinv) as Hr. cbv zeta in Hr.
  set (m'' := round_nearest_even (shr_m mrs') (loc_of_shr_record mrs')) in *.
  destruct Hr as [Hm0 Hr].
  assert (Pn : 0 < 2 ^ Zpos n) by (apply Z.pow_pos_nonneg; lia).
  assert (P1 : 2 ^ (Zpos n + 1) = 2 * 2 ^ Zpos n) by (rewrite Z.pow_add_r; lia).
  assert (Pd : 2 ^ d = two_53 * 2 ^ Zpos n).
  { replace d with (53 + Zpos n) by lia. rewrite Z.pow_add_r by lia. reflexivity. }
  assert (Pd1 : 2 * 2 ^ (d - 1) = 2 ^ d).
  { replace d with (1 + (d - 1)) at 2 by lia. rewrite Z.pow_add_r by lia. reflexivity. }
  set (X := 2 ^ Zpos n) in *.
  rewrite P1 in Hr. rewrite <- Pd1 in Pd.
  change two_53 with 9007199254740992 in *.
  change (2 ^ 52) with 4503599627370496.
  change (2 ^ 53) with 9007199254740992.
  assert (Hlo : 4503599627370496 <= m'').
  { destruct (Z.le_gt_cases 4503599627370496 m'') as [H|H]; [assumption|].
    assert (m'' * X <= 4503599627370495 * X)
      by (apply Z.mul_le_mono_nonneg_r; lia).
    lia. }
  assert (Hhi : m'' <= 9007199254740992).
  { destruct (Z.le_gt_cases m'' 9007199254740992) as [H|H]; [assumption|].
    assert (9007199254740993 * X <= m'' * X)
      by (apply Z.mul_le_mono_nonneg_r; lia).
    lia. }
  destruct m'' as [|q|q] eqn:Eq; try lia.
  assert (Herr : Z.abs (Zpos q * X - Zpos m) * 9007199254740992 <= Zpos m) by lia.
  destruct (Z.eq_dec (Zpos q) 9007199254740992) as [E53|N53].
  - assert (q = 9007199254740992%positive) by congruence.
    subst q.
    cbn [Zdigits2 digits2_pos Pos.succ]. unfold fexp.
    replace (Z.max (54 + (e + Zpos n) - prec) (emin prec emax) - (e + Zpos n)) with 1
      by (unfold emin, prec, emax in *; lia).
    cbn [shr iter_pos shr_1 shr_m].
    destruct (e + Zpos n + 1 <=? emax - prec); [|reflexivity].
    split; [reflexivity|]. split; [lia|].
    replace (e + Zpos n + 1 - e) with (Zpos n + 1) by lia.
    rewrite P1. lia.
  - assert (Hq : Zpos (digits2_pos q) = 53).
    { apply digits2_pos_unique. change (2 ^ (53 - 1)) with 4503599627370496.
      change (2 ^ 53) with 9007199254740992. lia. }
    cbn [Zdigits2]. rewrite Hq. unfold fexp.
    replace (Z.max (53 + (e + Zpos n) - prec) (emin prec emax) - (e + Zpos n)) with 0
      by (unfold emin, prec, emax in *; lia).
    cbn [shr shr_m].
    destruct (e + Zpos n <=? emax - prec); [|reflexivity].
    split; [reflexivity|]. split; [lia|].
    replace (e + Zpos n - e) with (Zpos n) by lia.
    exact Herr.
Qed.

(** Aligning a mantissa to a lower exponent keeps the value. *)
Lemma shl_align_spec (m : positive) (e e' : Z) :
  let '(mz, ez) := shl_align m e e' in
  ez = Z.min e e' /\ Zpos mz = Zpos m * 2 ^ (e - ez).
Proof.
  pose proof (shl_align_value m e e') as H.
  unfold shl_align in *.
  destruct (e' - e) as [|d|d] eqn:E; simpl fst in H.
  - split; [lia|]. replace (e - e) with 0 by lia. lia.
  - split; [lia|]. replace (e - e) with 0 by lia. lia.
  - split; [lia|]. apply H. lia.
Qed.

(** The same for normalization, in units of 2^-1074. *)
Lemma binary_round_error (m : positive) (e : Z) :
  emin64 <= e ->
  match binary_round prec emax false m e with
  | S754_finite s m' e' =>
      s = false /\ emin64 <= e' /\
      Z.abs (Zpos m' * 2 ^ (e' - emin64) - Zpos m * 2 ^ (e - emin64)) * two_53
      <= Zpos m * 2 ^ (e - emin64)
  | S754_infinity s => s = false
  | _ => False
  end.
Proof.
  intros He. unfold binary_round.
  pose proof (shl_align_spec m e (fexp prec emax (Zpos (digits2_pos m) + e))) as Hs.
  destruct (shl_align _ _ _) as [mz ez]. destruct Hs as [Hez Hmz].
  assert (Hez' : emin64 <= ez /\ ez <= e).
  { unfold fexp, emin64 in *. lia. }
  pose proof (binary_round_aux_error mz ez (proj1 Hez')) as H.
  destruct (binary_round_aux _ _ _ _ _ _) as [s|s| |s m' e']; auto.
  destruct H as (-> & He' & Herr).
  split; [reflexivity|]. split; [lia|].
  rewrite Hmz in Herr.
  replace (e' - emin64) with ((e' - ez) + (ez - emin64)) by lia.
  replace (e - emin64) with ((e - ez) + (ez - emin64)) by lia.
  rewrite !Z.pow_add_r by lia.
  set (A := Zpos m' * 2 ^ (e' - ez)) in *.
  set (B := Zpos m * 2 ^ (e - ez)) in *.
  set (W := 2 ^ (ez - emin64)).
  assert (0 < W) by (apply Z.pow_pos_nonneg; lia).
  replace (Zpos m' * (2 ^ (e' - ez) * W) - Zpos m * (2 ^ (e - ez) * W))
    with ((A - B) * W) by (unfold A, B; ring).
  replace (Zpos m * (2 ^ (e - ez) * W)) with (B * W) by (unfold B; ring).
  rewrite Z.abs_mul, (Z.abs_eq W) by lia.
  replace (Z.abs (A - B) * W * two_53) with (Z.abs (A - B) * two_53 * W) by ring.
  apply Z.mul_le_mono_nonneg_r; lia.
Qed.

(** One addition of finite floats that are not negative overflows, or is
    exact up to a relative error of 2^-53. *)
Lemma fadd_error (a b : float) :
  summable a -> summable b ->
  fadd a b = S754_infinity false \/
  summable (fadd a b) /\
  Z.abs (units (fadd a b) - (units a + units b)) * two_53 <= units a + units b.
Proof.
  unfold fadd.
  destruct a as [sa|sa| |sa ma ea], b as [sb|sb| |sb mb eb];
    cbn [SFadd summable units]; try tauto.
  - intros _ _. right. destruct sa, sb; cbn [summable units]; split; auto; lia.
  - intros _ [-> Hb]. right. split; [auto|].
    assert (0 < 2 ^ (eb - emin64)) by (apply Z.pow_pos_nonneg; lia). lia.
  - intros [-> Ha] _. right. split; [auto|].
    assert (0 < 2 ^ (ea - emin64)) by (apply Z.pow_pos_nonneg; lia). lia.
  - intros [-> Ha] [-> Hb].
    cbn [cond_Zopp].
    pose proof (shl_align_value ma ea (Z.min ea eb) ltac:(lia)) as Va.
    pose proof (shl_align_value mb eb (Z.min ea eb) ltac:(lia)) as Vb.
    set (ez := Z.min ea eb) in *.
    destruct (Zpos (fst (shl_align ma ea ez)) + Zpos (fst (shl_align mb eb ez)))
      as [|n|n] eqn:En; try lia.
    unfold binary_normalize.
    pose proof (binary_round_error n ez ltac:(unfold ez; lia)) as H.
    destruct (binary_round _ _ _ _ _) as [s|s| |s m' e']; try contradiction.
    + left. now subst.
    + right. destruct H as (-> & He' & Herr). split; [now split|].
      cbn [units].
      assert (E : Zpos n * 2 ^ (ez - emin64) =
              Zpos ma * 2 ^ (ea - emin64) + Zpos mb * 2 ^ (eb - emin64)).
      { rewrite <- En, Va, Vb.
        replace (ea - emin64) with ((ea - ez) + (ez - emin64)) by lia.
        replace (eb - emin64) with ((eb - ez) + (ez - emin64)) by lia.
        rewrite !Z.pow_add_r by (unfold ez; lia). ring. }
      rewrite <- E. exact Herr.
Qed.

(** ** The float sum and the exact sum *)

Lemma units_nonneg (x : float) : 0 <= units x.
Proof.
  destruct x as [s|s| |s m e]; cbn [units]; try lia.
Qed.

Lemma exact_sum_nonneg (d : list float) : 0 <= exact_sum d.
Proof.
  induction d as [|x d IH]; cbn [exact_sum fold_right]; [lia|].
  fold (exact_sum d). pose proof (units_nonneg x). lia.
Qed.

(** Once the sum has overflowed it stays +inf. *)
Lemma fold_fadd_inf (d : list float) :
  Forall summable d -> fold_left fadd d (S754_infinity false) = S754_infinity false.
Proof.
  induction 1 as [|x d Hx _ IH]; simpl; [reflexivity|].
  destruct x as [s|s| |s m e]; simpl in Hx; try contradiction; exact IH.
Qed.

(** One step of the accumulation of the relative error. *)
Lemma step_bound (U pn un qn S A X A' : Z) :
  1 <= U -> 0 <= pn <= un -> un <= qn ->
  0 <= S -> 0 <= A -> 0 <= X ->
  pn * S <= un * A <= qn * S ->
  Z.abs (A' - (A + X)) * U <= A + X ->
  (U - 1) * pn * (S + X) <= U * un * A' <= (U + 1) * qn * (S + X).
Proof.
  intros HU Hp Hq HS HA HX [Hlo Hhi] Herr.
  assert (E1 : (U - 1) * (A + X) <= U * A') by lia.
  assert (E2 : U * A' <= (U + 1) * (A + X)) by lia.
  assert (F1 : pn * X <= un * X) by (apply Z.mul_le_mono_nonneg_r; lia).
  assert (F2 : un * X <= qn * X) by (apply Z.mul_le_mono_nonneg_r; lia).
  split.
  - apply Z.le_trans with (un * ((U - 1) * (A + X))).
    + replace ((U - 1) * pn * (S + X)) with ((U - 1) * (pn * S + pn * X)) by ring.
      replace (un * ((U - 1) * (A + X))) with ((U - 1) * (un * A + un * X)) by ring.
      apply Z.mul_le_mono_nonneg_l; lia.
    + replace (U * un * A') with (un * (U * A')) by ring.
      apply Z.mul_le_mono_nonneg_l; lia.
  - apply Z.le_trans with (un * ((U + 1) * (A + X))).
    + replace (U * un * A') with (un * (U * A')) by ring.
      apply Z.mul_le_mono_nonneg_l; lia.
    + replace ((U + 1) * qn * (S + X)) with ((U + 1) * (qn * S + qn * X)) by ring.
      replace (un * ((U + 1) * (A + X))) with ((U + 1) * (un * A + un * X)) by ring.
      apply Z.mul_le_mono_nonneg_l; lia.
Qed.

(** The loop of the sum, from an accumulator that is within the bounds. *)
Lemma sum_error_acc (d : list float) :
  forall (acc : float) (S n : Z),
    0 <= n -> 0 <= S -> summable acc -> Forall summable d ->
    (two_53 - 1) ^ n * S <= two_53 ^ n * units acc <= (two_53 + 1) ^ n * S ->
    summable (fold_left fadd d acc) ->
    let N := n + Z.of_nat (List.length d) in
    let S' := S + exact_sum d in
    (two_53 - 1) ^ N * S' <= two_53 ^ N * units (fold_left fadd d acc) <= (two_53 + 1) ^ N * S'.
Proof.
  induction d as [|x d IH]; intros acc S n Hn HS Hacc Hd Hb Hres.
  - simpl. now rewrite !Z.add_0_r.
  - inversion Hd as [|? ? Hx Hd']; subst.
    simpl fold_left in *.
    destruct (fadd_error acc x Hacc Hx) as [Einf|[Hs Herr]].
    { rewrite Einf, fold_fadd_inf in Hres by assumption. contradiction. }
    cbv zeta.
    replace (n + Z.of_nat (List.length (x :: d))) with ((n + 1) + Z.of_nat (List.length d))
      by (simpl List.length; lia).
    replace (S + exact_sum (x :: d)) with ((S + units x) + exact_sum d)
      by (cbn [exact_sum fold_right]; fold (exact_sum d); lia).
    pose proof (units_nonneg x) as Hux.
    pose proof (units_nonneg acc) as Hua.
    apply IH; try assumption; try lia.
    rewrite !Z.pow_add_r, !Z.pow_1_r by lia.
    assert (Hu : 1 <= two_53) by (change two_53 with 9007199254740992; lia).
    assert (0 <= (two_53 - 1) ^ n) by (apply Z.pow_nonneg; lia).
    assert ((two_53 - 1) ^ n <= two_53 ^ n) by (apply Z.pow_le_mono_l; lia).
    assert (two_53 ^ n <= (two_53 + 1) ^ n) by (apply Z.pow_le_mono_l; lia).
    pose proof (step_bound two_53 ((two_53 - 1) ^ n) (two_53 ^ n) ((two_53 + 1) ^ n) S (units acc)
                  (units x) (units (fadd acc x)) Hu ltac:(lia) ltac:(lia) HS Hua Hux Hb Herr) as H'.
    replace ((two_53 - 1) ^ n * (two_53 - 1)) with ((two_53 - 1) * (two_53 - 1) ^ n) by ring.
    replace (two_53 ^ n * two_53) with (two_53 * two_53 ^ n) by ring.
    replace ((two_53 + 1) ^ n * (two_53 + 1)) with ((two_53 + 1) * (two_53 + 1) ^ n) by ring.
    exact H'.
Qed.

(** The float sum of N finite samples is within a factor (1 +- 2^-53)^N of
    their exact sum. *)
Lemma py_sum_error (d : list float) :
  Forall summable d -> summable (py_sum d) ->
  let N := Z.of_nat (List.length d) in
  (two_53 - 1) ^ N * exact_sum d <= two_53 ^ N * units (py_sum d)
  <= (two_53 + 1) ^ N * exact_sum d.
Proof.
  intros Hd Hs.
  pose proof (sum_error_acc d zero 0 0 ltac:(lia) ltac:(lia) I Hd) as H.
  cbv zeta in H. rewrite !Z.add_0_l in H. apply H; [|exact Hs].
  rewrite !Z.pow_0_r. cbn [units zero]. lia.
Qed.

(** ** The samples of a release *)

(** The exponent of a well-formed float is at least -1074. *)
Lemma valid_exponent (s : bool) (m : positive) (e : Z) :
  valid (S754_finite s m e) = true -> emin64 <= e.
Proof.
  unfold valid, valid_binary, bounded, canonical_mantissa, fexp, emin64.
  intros H. apply andb_prop in H as [H _]. apply Z.eqb_eq in H. lia.
Qed.

(** A positive difference of well-formed floats is in range, or +inf. *)
Lemma fsub_positive (t1 t0 : float) :
  valid t1 = true -> valid t0 = true -> flt zero (fsub t1 t0) = true ->
  summable (fsub t1 t0) \/ fsub t1 t0 = S754_infinity false.
Proof.
  unfold fsub.
  destruct t1 as [s1|s1| |s1 m1 e1], t0 as [s0|s0| |s0 m0 e0];
    cbn [SFsub]; intros V1 V0 H.
  all: try (destruct s1, s0; cbn [negb] in *; first [discriminate H | now right | now left]).
  all: try (destruct s1; cbn [negb] in *; first [discriminate H | now right | now left]).
  all: try (destruct s0; cbn [negb] in *; first [discriminate H | now right | now left]).
  all: try (cbv in H; discriminate H).
  - left. destruct s0; [|discriminate H]. split; [reflexivity|]. eapply valid_exponent; eauto.
  - left. destruct s1; [discriminate H|]. split; [reflexivity|]. eapply valid_exponent; eauto.
  - apply valid_exponent in V1, V0.
    set (ez := Z.min e1 e0) in *.
    destruct (cond_Zopp s1 _ - cond_Zopp s0 _) as [|n|n] eqn:En.
    + discriminate H.
    + unfold binary_normalize in *.
      pose proof (binary_round_error n ez ltac:(unfold ez; lia)) as Hr.
      destruct (binary_round _ _ _ _ _) as [s|s| |s m' e']; try contradiction.
      * right. now subst.
      * left. destruct Hr as (-> & He' & _). now split.
    + rewrite binary_normalize_not_pos in H by lia. discriminate H.
Qed.

(** With well-formed readings the sample of a release is finite, not
    negative and in range, unless the difference overflows to +inf. *)
Lemma elapsed_summable (t1 t0 : float) :
  valid t1 = true -> valid t0 = true ->
  let x := py_max2 zero (fsub t1 t0) in
  summable x \/ x = S754_infinity false.
Proof.
  intros V1 V0 x. unfold x, py_max2.
  destruct (flt zero (fsub t1 t0)) eqn:E.
  - now apply fsub_positive.
  - now left.
Qed.

(** ** Reachable trackers *)

Lemma configure_records (emit_each time_unit summary_level : option pyval)
  (self : TimeTracker) :
  _records (snd (configure emit_each time_unit summary_level self)) =
  _records self.
Proof.
  rewrite configure_eq. unfold level_fault, with_summary_level.
  destruct (unit_ok time_unit), emit_each, time_unit, summary_level as [v|];
    try destruct (py_str v); reflexivity.
Qed.

Lemma summary_records (sort_by : pyval) (descending : bool)
  (limit : option Z) (reset : bool) (title : string) (self : TimeTracker) :
  let self' := snd (summary sort_by descending limit reset title self) in
  _records self' = _records self \/ _records self' = [].
Proof.
  cbv zeta. rewrite summary_eq.
  destruct (key_func sort_by); [|now left]. cbv zeta.
  destruct (logger_fault _ _); [now left|].
  destruct reset; [now right|now left].
Qed.

(** Every reachable tracker satisfies the invariant of the store. *)
Lemma reachable_store_ok (self : TimeTracker) :
  reachable self -> store_ok (_records self).
Proof.
  induction 1 as [|ctx self _ IH|ctx exc self _ IH|e u l self _ IH
                  |self _ IH|sort_by descending limit reset title self _ IH].
  - apply store_ok_nil.
  - exact IH.
  - now apply exit_store_ok.
  - now rewrite configure_records.
  - apply store_ok_nil.
  - destruct (summary_records sort_by descending limit reset title self)
      as [-> | ->]; [exact IH|apply store_ok_nil].
Qed.

(** C1.  In a tracker reached by the calls of the interface, for a task
    whose series [d] holds N >= 1 samples, the statistics computed for the
    summary contain exactly one record of that task, and in it [count] is
    N, [total] is the float sum of the samples, [avg] is [total / count],
    [min] and [max] are samples of [d] that bound every sample of [d] from
    below and from above, and [last] is the N-th sample.  When the samples
    and their float sum are finite, the float sum is within a factor
    (1 - 2^-53)^N to (1 + 2^-53)^N of the exact sum. *)
Theorem compute_stats_correct (self : TimeTracker) (name : string)
  (d : list float) :
  reachable self ->
  lookup name (_records self) = Some d ->
  (1 <= List.length d)%nat ->
  let N := Z.of_nat (List.length d) in
  exists s,
    In s (_compute_stats self) /\
    (forall s', In s' (_compute_stats self) -> task s' = name -> s' = s) /\
    task s = name /\
    count s = N /\
    total_s s = py_sum d /\
    (Forall summable d -> summable (total_s s) ->
     (two_53 - 1) ^ N * exact_sum d <= two_53 ^ N * units (total_s s)
     <= (two_53 + 1) ^ N * exact_sum d) /\
    avg_s s = fdiv (total_s s) (of_int (count s)) /\
    (In (min_s s) d /\ Forall (fun x => fle (min_s s) x = true) d) /\
    (In (max_s s) d /\ Forall (fun x => fle x (max_s s) = true) d) /\
    nth_error d (List.length d - 1) = Some (last_s s).
Proof.
  intros Hreach Hlook Hlen N.
  destruct (compute_stats_of_store self name d
              (reachable_store_ok self Hreach) Hlook Hlen)
    as (s & H1 & H2 & H3 & H4 & H5 & H6 & H7 & H8 & H9).
  exists s. repeat (split; [assumption|]).
  split; [|repeat (split; [assumption|]); assumption].
  intros Hd Hs. rewrite H5 in *. now apply py_sum_error.
Qed.

(* ----------------------------------------------------------------- *)
(** ** Releases: what one release changes *)

Lemma fsub_same (t : float) : py_max2 zero (fsub t t) = zero.
Proof.
  unfold py_max2, fsub.
  destruct t as [[]|[]| |s m e]; try reflexivity.
  cbn [SFsub]. rewrite Z.sub_diag. reflexivity.
Qed.

(** X1.  A timer released without having been entered, or released at the
    very reading it was entered at, records exactly [0.0], whatever the
    reading is (a NaN or an infinity included). *)
Theorem release_without_progress (name level_name : string)
  (exc : option pyexc) (self : TimeTracker) :
  let t1 := clock (ticks self) in
  series name (snd (__exit__ (mk_ctx name level_name None) exc self))
  = (series name self ++ [zero])%list /\
  series name (snd (__exit__ (mk_ctx name level_name (Some t1)) exc self))
  = (series name self ++ [zero])%list.
Proof.
  cbv zeta. unfold series. rewrite !exit_records.
  cbn [_task _t0]. unfold elapsed_of.
  rewrite !series_appended, fsub_same. now split.
Qed.

(** X2.  A release changes one series only: the series of every other task
    is as before, the series of its own task is one sample longer, the keys
    of the store keep their order with a new task last, and the
    configuration is untouched.  It reads the clock once. *)
Theorem release_touches_one_series (ctx : _TaskContext) (exc : option pyexc)
  (self : TimeTracker) :
  let self' := snd (__exit__ ctx exc self) in
  (forall other, other <> _task ctx ->
     lookup other (_records self') = lookup other (_records self)) /\
  List.length (series (_task ctx) self')
  = S (List.length (series (_task ctx) self)) /\
  keys (_records self') =
    match lookup (_task ctx) (_records self) with
    | Some _ => keys (_records self)
    | None => (keys (_records self) ++ [_task ctx])%list
    end /\
  config self' = config self /\
  ticks self' = S (ticks self).
Proof.
  cbv zeta. unfold series, keys. rewrite exit_records.
  split.
  { intros other Hne. rewrite lookup_setdefault_append.
    destruct (String.eqb_spec (_task ctx) other); congruence. }
  split.
  { rewrite series_appended, length_app. simpl. lia. }
  split; [apply setdefault_append_keys|].
  rewrite exit_eq. cbv zeta.
  destruct (exit_fault ctx exc self), (_emit_each self); now split.
Qed.

(* ----------------------------------------------------------------- *)
(** ** Task names *)

Lemma lstrip_idem (s : string) : Str.lstrip (Str.lstrip s) = Str.lstrip s.
Proof.
  induction s as [|c s IH]; [reflexivity|].
  simpl. destruct (Str.isspace c) eqn:E; [exact IH|].
  simpl. now rewrite E.
Qed.

Lemma rstrip_idem (s : string) : Str.rstrip (Str.rstrip s) = Str.rstrip s.
Proof.
  induction s as [|c s IH]; [reflexivity|].
  simpl. destruct (Str.rstrip s) as [|c' r] eqn:E.
  - destruct (Str.isspace c) eqn:Ec; [reflexivity|].
    simpl. now rewrite Ec.
  - change (Str.rstrip (String c (String c' r)))
      with (match Str.rstrip (String c' r) with
            | EmptyString =>
                if Str.isspace c then EmptyString else String c EmptyString
            | r' => String c r'
            end).
    now rewrite IH.
Qed.

(** Stripping on the right keeps a first character that is no space. *)
Lemma lstrip_rstrip (s : string) :
  Str.lstrip s = s -> Str.lstrip (Str.rstrip s) = Str.rstrip s.
Proof.
  destruct s as [|c s]; [reflexivity|].
  simpl. destruct (Str.isspace c) eqn:Ec.
  - intros H. exfalso.
    assert (L : forall t, (String.length (Str.lstrip t) <= String.length t)%nat).
    { induction t as [|a t IHt]; simpl; [lia|].
      destruct (Str.isspace a); simpl; lia. }
    pose proof (L s) as Hl. rewrite H in Hl. simpl in Hl. lia.
  - intros _. destruct (Str.rstrip s); simpl; now rewrite Ec.
Qed.

Lemma strip_idem (s : string) : Str.strip (Str.strip s) = Str.strip s.
Proof.
  unfold Str.strip.
  rewrite (lstrip_rstrip (Str.lstrip s)) by apply lstrip_idem.
  apply rstrip_idem.
Qed.

(** X3.  An entry point names its timer by the stripped task name: the name
    has no whitespace left at either end, stripping it again changes
    nothing, and two arguments that differ only in surrounding whitespace
    give the same timer, so their samples land in one series.  Making a
    timer changes nothing in the tracker. *)
Theorem task_name_stripped (ep : pyval -> M _TaskContext) (s : string)
  (self : TimeTracker) :
  In ep entry_points ->
  Str.strip s <> "" ->
  exists ctx,
    ep (PyStr s) self = (Returned ctx, self) /\
    _task ctx = Str.strip s /\
    _t0 ctx = None /\
    Str.lstrip (_task ctx) = _task ctx /\
    Str.rstrip (_task ctx) = _task ctx /\
    forall s', Str.strip s' = Str.strip s ->
      ep (PyStr s') self = (Returned ctx, self).
Proof.
  intros Hep Hs.
  pose proof entry_points_ctx as H. rewrite Forall_forall in H.
  destruct (H ep Hep) as [level_name Heq].
  exists (mk_ctx (Str.strip s) level_name None).
  assert (E : forall s', Str.strip s' = Str.strip s ->
            ep (PyStr s') self =
            (Returned (mk_ctx (Str.strip s) level_name None), self)).
  { intros s' Hs'. rewrite Heq. unfold _ctx. rewrite Hs'.
    destruct (String.eqb_spec (Str.strip s) ""); [contradiction|reflexivity]. }
  split; [now apply E|]. split; [reflexivity|]. split; [reflexivity|].
  cbn [_task]. split; [|split; [|exact E]].
  - unfold Str.strip. apply lstrip_rstrip, lstrip_idem.
  - unfold Str.strip. apply rstrip_idem.
Qed.

(** X4.  A task that is not a str (here a bool or an int) is rejected by
    every entry point with the same [ValueError] as a blank name, and the
    tracker is left as it was. *)
Theorem non_str_task_rejected (ep : pyval -> M _TaskContext) (v : pyval)
  (self : TimeTracker) (body : M unit) :
  In ep entry_points ->
  (forall s, v <> PyStr s) ->
  ep v self =
    (Raised (ValueError "task name must be a non-empty string"), self) /\
  with_ (ep v) body self =
    (Raised (ValueError "task name must be a non-empty string"), self).
Proof.
  intros Hep Hv.
  pose proof entry_points_ctx as H. rewrite Forall_forall in H.
  destruct (H ep Hep) as [level_name Heq].
  assert (E : ep v self =
    (Raised (ValueError "task name must be a non-empty string"), self)).
  { rewrite Heq. destruct v as [b|n|s]; try reflexivity.
    now destruct (Hv s). }
  split; [exact E|].
  unfold with_, bind at 1. now rewrite E.
Qed.

(* ----------------------------------------------------------------- *)
(** ** What a release sends *)

(** X5.  With [emit_each] off a release sends nothing to the logger and
    cannot fail.  With [emit_each] on it sends exactly one message, after
    the append: not raw, at the level of the timer, of kind [event], naming
    the task, with the status [OK] or [EXC:] and the class of the exception
    of the block, and with the elapsed time formatted in the unit of the
    tracker; the release raises exactly when the logger does. *)
Theorem release_emission (ctx : _TaskContext) (exc : option pyexc)
  (self : TimeTracker) :
  let result := __exit__ ctx exc self in
  let x := elapsed_of (_t0 ctx) (clock (ticks self)) in
  (_emit_each self = false ->
   logged (snd result) = logged self /\ fst result = Returned false) /\
  (_emit_each self = true ->
   exists c,
     logged (snd result) = (logged self ++ [c])%list /\
     call_raw c = false /\
     call_level c = _level_name ctx /\
     dict_get "kind" (call_extra c) = Some (LStr "event") /\
     dict_get "task" (call_extra c) = Some (LStr (_task ctx)) /\
     dict_get "elapsed_s" (call_extra c) = Some (LFloat x) /\
     dict_get "status" (call_extra c) =
       Some (LStr match exc with
                  | None => "OK"
                  | Some e => "EXC:" ++ exc_name e
                  end) /\
     In ("elapsed", _fmt_time self x) (call_kwargs c) /\
     fst result = match logger_fault (logged self) c with
                  | Some e => Raised e
                  | None => Returned false
                  end).
Proof.
  cbv zeta. rewrite exit_eq. cbv zeta. unfold exit_fault.
  split; intros He; rewrite He.
  - now split.
  - exists (exit_call ctx exc self).
    split; [now destruct (logger_fault _ _)|].
    repeat (split; [reflexivity|]).
    split; [now destruct exc|].
    split; [right; right; now left|].
    now destruct (logger_fault _ _).
Qed.

Lemma exit_call_tagged (ctx : _TaskContext) (exc : option pyexc)
  (self : TimeTracker) : tagged (exit_call ctx exc self).
Proof.
  split; [reflexivity|]. split; [now left|].
  simpl. intuition discriminate.
Qed.

Lemma summary_call_tagged (self : TimeTracker) (rendered : string) :
  tagged (summary_call self rendered).
Proof.
  split; [reflexivity|]. split; [now right|].
  simpl. tauto.
Qed.

Lemma exit_logged (ctx : _TaskContext) (exc : option pyexc)
  (self : TimeTracker) :
  logged (snd (__exit__ ctx exc self)) =
  if _emit_each self
  then (logged self ++ [exit_call ctx exc self])%list
  else logged self.
Proof.
  rewrite exit_eq. cbv zeta.
  destruct (exit_fault ctx exc self), (_emit_each self); reflexivity.
Qed.

Lemma configure_logged (emit_each time_unit summary_level : option pyval)
  (self : TimeTracker) :
  logged (snd (configure emit_each time_unit summary_level self)) =
  logged self.
Proof.
  rewrite configure_eq. unfold level_fault, with_summary_level.
  destruct (unit_ok time_unit), emit_each, time_unit, summary_level as [v|];
    try destruct (py_str v); reflexivity.
Qed.

Lemma summary_logged (sort_by : pyval) (descending : bool)
  (limit : option Z) (reset : bool) (title : string) (self : TimeTracker) :
  let self' := snd (summary sort_by descending limit reset title self) in
  logged self' = logged self \/
  exists rendered,
    logged self' = (logged self ++ [summary_call self rendered])%list.
Proof.
  cbv zeta. rewrite summary_eq.
  destruct (key_func sort_by); [|now left]. cbv zeta.
  right. eexists.
  destruct (logger_fault _ _); [reflexivity|].
  destruct reset; reflexivity.
Qed.

(** X6.  Every message a tracker has sent to its logger carries the marker
    [event = time_logger] in its bound context, so the filter that
    [add_event_sink] registers accepts it; its kind is [event] or
    [summary]. *)
Theorem every_message_tagged (self : TimeTracker) :
  reachable self -> Forall tagged (logged self).
Proof.
  induction 1 as [|ctx self _ IH|ctx exc self _ IH|e u l self _ IH
                  |self _ IH|sort_by descending limit reset title self _ IH].
  - constructor.
  - exact IH.
  - rewrite exit_logged. destruct (_emit_each self); [|exact IH].
    apply Forall_app. split; [exact IH|].
    constructor; [apply exit_call_tagged|constructor].
  - now rewrite configure_logged.
  - exact IH.
  - destruct (summary_logged sort_by descending limit reset title self)
      as [-> | [rendered ->]]; [exact IH|].
    apply Forall_app. split; [exact IH|].
    constructor; [apply summary_call_tagged|constructor].
Qed.

(* ----------------------------------------------------------------- *)
(** ** The unit of a reachable tracker *)

Lemma configure_time_unit (emit_each time_unit summary_level : option pyval)
  (self : TimeTracker) :
  let self' := snd (configure emit_each time_unit summary_level self) in
  _time_unit self' = _time_unit self \/
  _time_unit self' = "ms" \/ _time_unit self' = "s".
Proof.
  cbv zeta. rewrite configure_eq.
  destruct (unit_ok time_unit) eqn:E.
  - unfold level_fault, with_summary_level.
    apply unit_ok_iff in E as [-> | [-> | ->]];
      destruct emit_each, summary_level as [v|]; try destruct (py_str v);
      simpl; auto.
  - destruct emit_each; simpl; auto.
Qed.

Lemma summary_time_unit (sort_by : pyval) (descending : bool)
  (limit : option Z) (reset : bool) (title : string) (self : TimeTracker) :
  _time_unit (snd (summary sort_by descending limit reset title self)) =
  _time_unit self.
Proof.
  rewrite summary_eq.
  destruct (key_func sort_by); [|reflexivity]. cbv zeta.
  destruct (logger_fault _ _); [reflexivity|].
  now destruct reset.
Qed.

Lemma exit_time_unit (ctx : _TaskContext) (exc : option pyexc)
  (self : TimeTracker) :
  _time_unit (snd (__exit__ ctx exc self)) = _time_unit self.
Proof.
  rewrite exit_eq. cbv zeta.
  destruct (exit_fault ctx exc self), (_emit_each self); reflexivity.
Qed.

(** X7.  The unit of a tracker is always ["s"] or ["ms"]: it starts as
    ["s"] and [configure] stores a validated unit only.  A time is thus
    rendered with 6 decimals and [ s], or, multiplied by 1000, with 3
    decimals and [ ms]. *)
Theorem time_unit_recognized (self : TimeTracker) :
  reachable self ->
  (_time_unit self = "s" /\
   forall x, _fmt_time self x = format_f 6 x ++ " s") \/
  (_time_unit self = "ms" /\
   forall x, _fmt_time self x = format_f 3 (fmul x thousand) ++ " ms").
Proof.
  intros H.
  assert (U : _time_unit self = "s" \/ _time_unit self = "ms").
  { induction H as [|ctx self _ IH|ctx exc self _ IH|e u l self _ IH
                    |self _ IH|sort_by descending limit reset title self _ IH].
    - now left.
    - exact IH.
    - now rewrite exit_time_unit.
    - destruct (configure_time_unit e u l self) as [-> | [-> | ->]]; auto.
    - exact IH.
    - now rewrite summary_time_unit. }
  unfold _fmt_time.
  destruct U as [-> | ->]; [left|right]; split; reflexivity.
Qed.

(* ----------------------------------------------------------------- *)
(** ** Ties in the order of the rows *)

Section Stability.

Context {A : Type}.
Variable lt : A -> A -> bool.
Hypothesis lt_trans : forall a b c, lt a b = true -> lt b c = true -> lt a c = true.
Hypothesis lt_irrefl : forall a, lt a a = false.

(** [p] selects items that compare alike. *)
Variable p : A -> bool.
Hypothesis p_alike :
  forall a b, p a = true -> p b = true -> forall c, lt a c = lt b c.

Lemma insert_filter_out (x : A) (l : list A) :
  p x = false -> filter p (insert lt x l) = filter p l.
Proof.
  intros Hx. induction l as [|y l IH]; simpl; [now rewrite Hx|].
  destruct (lt x y); simpl; [now rewrite Hx|].
  now rewrite IH.
Qed.

(** An item is inserted after the items that compare like it. *)
Lemma insert_filter_in (x : A) (l : list A) :
  StronglySorted (not_above lt) l -> p x = true ->
  filter p (insert lt x l) = (filter p l ++ [x])%list.
Proof.
  intros Hs Hx.
  induction Hs as [|y l Hs IH Hy]; cbn [insert]; [simpl; now rewrite Hx|].
  destruct (lt x y) eqn:E.
  - assert (Hnone : filter p (y :: l) = []).
    { assert (F : forall z, In z (y :: l) -> p z = false).
      { intros z [<-|Hz].
        - destruct (p y) eqn:Py; [|reflexivity].
          rewrite (p_alike x y Hx Py y), lt_irrefl in E. discriminate.
        - rewrite Forall_forall in Hy. specialize (Hy z Hz).
          unfold not_above in Hy.
          destruct (p z) eqn:Pz; [|reflexivity].
          rewrite (p_alike x z Hx Pz y), Hy in E. discriminate. }
      clear -F. induction (y :: l) as [|a l' IH']; [reflexivity|].
      simpl. rewrite (F a) by now left.
      apply IH'. intros z Hz. apply F. now right. }
    change (filter p (x :: y :: l)) with
      (if p x then x :: filter p (y :: l) else filter p (y :: l)).
    now rewrite Hx, Hnone.
  - cbn [filter]. rewrite IH. now destruct (p y).
Qed.

Lemma fold_insert_filter (l acc : list A) :
  StronglySorted (not_above lt) acc ->
  filter p (fold_left (fun acc x => insert lt x acc) l acc)
  = (filter p acc ++ filter p l)%list.
Proof.
  revert acc. induction l as [|x l IH]; intros acc Hacc; simpl.
  - now rewrite app_nil_r.
  - rewrite IH by now apply insert_sorted.
    destruct (p x) eqn:Px.
    + rewrite insert_filter_in by assumption. now rewrite <- app_assoc.
    + now rewrite insert_filter_out.
Qed.

Lemma stable_sort_filter (l : list A) :
  filter p (stable_sort lt l) = filter p l.
Proof.
  unfold stable_sort. rewrite fold_insert_filter; [reflexivity|constructor].
Qed.

End Stability.

Lemma filter_rev_eq {A : Type} (p : A -> bool) (l : list A) :
  filter p (rev l) = rev (filter p l).
Proof.
  induction l as [|x l IH]; [reflexivity|].
  simpl. rewrite filter_app, IH. simpl.
  destruct (p x); [reflexivity|now rewrite app_nil_r].
Qed.

(** X8.  The sort of [summary] is stable in both directions: records whose
    keys are equal stand in the table in the order [_compute_stats] gave
    them, the insertion order of their tasks, ascending or descending. *)
Theorem sort_keeps_ties_in_order (key : TaskStats -> sort_key)
  (descending : bool) (p : TaskStats -> bool) (self : TimeTracker) :
  (forall a b, p a = true -> p b = true -> key a = key b) ->
  filter p (shown key descending None self) = filter p (_compute_stats self).
Proof.
  intros Hp. unfold shown, take_limit, list_sort.
  pose (lt := fun a b : TaskStats => key_lt (key a) (key b)).
  assert (Ht : forall a b c, lt a b = true -> lt b c = true -> lt a c = true).
  { intros a b c. apply key_lt_trans. }
  assert (Hi : forall a, lt a a = false).
  { intros a. apply key_lt_irrefl. }
  assert (Ha : forall a b, p a = true -> p b = true ->
                forall c, lt a c = lt b c).
  { intros a b Pa Pb c. unfold lt. now rewrite (Hp a b Pa Pb). }
  destruct descending.
  - rewrite filter_rev_eq, (stable_sort_filter lt Ht Hi p Ha), filter_rev_eq.
    apply rev_involutive.
  - apply (stable_sort_filter lt Ht Hi p Ha).
Qed.

(* ----------------------------------------------------------------- *)
(** ** The limit *)

(** X9.  A limit never adds rows: the table has [min(max(0, limit), n)]
    rows for [n] tasks, they are the first rows of the sorted list, and a
    limit of [n] or more shows every task. *)
Theorem limit_bounds (key : TaskStats -> sort_key) (descending : bool)
  (k : Z) (self : TimeTracker) :
  let sorted := list_sort key descending (_compute_stats self) in
  let rows := shown key descending (Some k) self in
  let n := List.length (_compute_stats self) in
  List.length rows = Nat.min (Z.to_nat k) n /\
  (exists rest, sorted = (rows ++ rest)%list) /\
  (Z.of_nat n <= k -> rows = shown key descending None self).
Proof.
  cbv zeta. unfold shown. rewrite take_limit_firstn.
  set (sorted := list_sort key descending (_compute_stats self)).
  assert (Hn : List.length sorted = List.length (_compute_stats self)).
  { apply Permutation_length, list_sort_perm. }
  split; [now rewrite length_firstn, Hn|].
  split.
  - exists (skipn (Z.to_nat k) sorted). symmetry. apply firstn_skipn.
  - intros Hk. apply firstn_all2.
    change (List.length sorted <= Z.to_nat k)%nat. lia.
Qed.

(* ----------------------------------------------------------------- *)
(** ** Summary and the store *)

(** X10.  When the logger raises on the table, [summary] raises the
    logger's exception and the samples are kept, also with [reset]: the
    store is cleared only after a successful emission.  The configuration
    is as before. *)
Theorem summary_failure_keeps_samples (sort_by : pyval)
  (key : TaskStats -> sort_key) (descending : bool) (limit : option Z)
  (reset : bool) (title : string) (self : TimeTracker) (e : pyexc) :
  key_func sort_by = Some key ->
  let rendered := _render_summary self (shown key descending limit self) title in
  logger_fault (logged self) (summary_call self rendered) = Some e ->
  let result := summary sort_by descending limit reset title self in
  fst result = Raised e /\
  _records (snd result) = _records self /\
  config (snd result) = config self /\
  logged (snd result) = (logged self ++ [summary_call self rendered])%list.
Proof.
  intros Hkey rendered Hfault. cbv zeta.
  rewrite summary_eq, Hkey. cbv zeta. fold rendered. rewrite Hfault.
  repeat split.
Qed.

(** X11.  A [summary] without [reset] only reads the tracker: the store, the
    configuration and the clock are as before and one message was sent.
    Asked again with the same arguments it renders the same text. *)
Theorem summary_repeatable (sort_by : pyval) (descending : bool)
  (limit : option Z) (title rendered : string) (self self' : TimeTracker) :
  summary sort_by descending limit false title self = (Returned rendered, self') ->
  _records self' = _records self /\
  config self' = config self /\
  ticks self' = ticks self /\
  logged self' = (logged self ++ [summary_call self rendered])%list /\
  let again := summary sort_by descending limit false title self' in
  logged (snd again) = (logged self' ++ [summary_call self' rendered])%list /\
  fst again =
    match logger_fault (logged self') (summary_call self' rendered) with
    | Some e => Raised e
    | None => Returned rendered
    end.
Proof.
  rewrite summary_eq.
  destruct (key_func sort_by) as [key|] eqn:Hkey; [|discriminate]. cbv zeta.
  destruct (logger_fault _ _); [discriminate|].
  intros H. injection H as <- <-.
  repeat (split; [reflexivity|]).
  match goal with
  | |- context [summary _ _ _ _ _ ?s] =>
      pose proof (summary_result sort_by key descending limit false title s
                    Hkey) as H
  end.
  exact H.
Qed.

(** X12.  A [summary] with [reset] that returns leaves the tracker that a
    [summary] without [reset] followed by [clear] leaves, and returns the
    same text. *)
Theorem reset_is_summary_then_clear (sort_by : pyval) (descending : bool)
  (limit : option Z) (title rendered : string) (self self' : TimeTracker) :
  summary sort_by descending limit true title self = (Returned rendered, self') ->
  exists self1,
    summary sort_by descending limit false title self
      = (Returned rendered, self1) /\
    clear self1 = (Returned tt, self').
Proof.
  rewrite !summary_eq.
  destruct (key_func sort_by) as [key|]; [|discriminate]. cbv zeta.
  destruct (logger_fault _ _); [discriminate|].
  intros H. injection H as <- <-.
  eexists. split; reflexivity.
Qed.

(* ----------------------------------------------------------------- *)
(** ** The records of the statistics *)

Lemma in_lookup (k : string) (d : list float) (r : records) :
  NoDup (keys r) -> In (k, d) r -> lookup k r = Some d.
Proof.
  unfold keys. induction r as [|[k' d'] r IH]; simpl; [tauto|].
  intros Hnd [H|H].
  - injection H as -> ->. now rewrite String.eqb_refl.
  - inversion Hnd as [|? ? Hk Hnd']; subst.
    destruct (String.eqb_spec k' k) as [->|Hne]; [|auto].
    exfalso. apply Hk. apply (in_map fst) in H. exact H.
Qed.

(** A record of the statistics is built from an entry of the store. *)
Lemma stats_of_items_inv (r : records) (s : TaskStats) :
  In s (stats_of_items r) ->
  exists x d, In (task s, x :: d) r /\ s = stats_of (task s) x d.
Proof.
  induction r as [|[k [|x d]] r IH]; simpl; [tauto| |].
  - intros H. destruct (IH H) as (x & d & Hin & Hs). eauto.
  - intros [<-|H].
    + exists x, d. split; [now left|reflexivity].
    + destruct (IH H) as (x' & d' & Hin & Hs). eauto.
Qed.

Lemma stats_of_items_keys (r : records) :
  Forall (fun kd => snd kd <> []) r ->
  map task (stats_of_items r) = keys r.
Proof.
  unfold keys. induction 1 as [|[k d] r Hd _ IH]; [reflexivity|].
  simpl in *. destruct d as [|x d]; [congruence|].
  simpl. now rewrite IH.
Qed.

(** X13.  The statistics have one record per task of the store, in the
    insertion order of the tasks.  The rows of a table are among them,
    each task at most once; without a limit they are all of them. *)
Theorem rows_are_the_tasks (key : TaskStats -> sort_key) (descending : bool)
  (limit : option Z) (self : TimeTracker) :
  reachable self ->
  let rows := shown key descending limit self in
  map task (_compute_stats self) = keys (_records self) /\
  NoDup (map task rows) /\
  (forall s, In s rows -> In (task s) (keys (_records self))) /\
  (limit = None -> Permutation (map task rows) (keys (_records self))).
Proof.
  intros Hreach rows.
  destruct (reachable_store_ok self Hreach) as [Hnd Hall].
  assert (Hkeys : map task (_compute_stats self) = keys (_records self)).
  { apply stats_of_items_keys. eapply Forall_impl; [|exact Hall].
    intros kd [H _]. exact H. }
  assert (Hperm : Permutation
            (map task (list_sort key descending (_compute_stats self)))
            (keys (_records self))).
  { rewrite <- Hkeys. apply Permutation_map, list_sort_perm. }
  assert (Hsub : exists rest,
            list_sort key descending (_compute_stats self)
            = (rows ++ rest)%list).
  { unfold rows, shown. destruct limit as [k|].
    - rewrite take_limit_firstn.
      eexists. symmetry. apply firstn_skipn.
    - exists []. now rewrite app_nil_r. }
  destruct Hsub as [rest Hrest].
  split; [exact Hkeys|]. split; [|split].
  - assert (Hn : NoDup (map task (rows ++ rest)%list)).
    { rewrite <- Hrest. eapply Permutation_NoDup; [symmetry; exact Hperm|].
      exact Hnd. }
    rewrite map_app in Hn. now apply NoDup_app_remove_r in Hn.
  - intros s Hs. eapply Permutation_in; [exact Hperm|].
    rewrite Hrest, map_app. apply in_or_app. left. now apply in_map.
  - intros ->. exact Hperm.
Qed.

Lemma last_in (x : float) (d : list float) : In (last (x :: d) x) (x :: d).
Proof.
  revert x. induction d as [|y d IH]; intros x; [now left|].
  right. change (last (x :: y :: d) x) with (last (y :: d) x).
  rewrite (last_default d y x y). apply IH.
Qed.

(** X14.  In every record of the statistics [count] is at least 1 and is
    the length of the series of the task, and the samples are ordered as
    [0.0 <= min <= last <= max]. *)
Theorem stats_record_bounds (self : TimeTracker) (s : TaskStats) :
  reachable self ->
  In s (_compute_stats self) ->
  1 <= count s /\
  count s = Z.of_nat (List.length (series (task s) self)) /\
  fle zero (min_s s) = true /\
  fle (min_s s) (last_s s) = true /\
  fle (last_s s) (max_s s) = true /\
  fle (min_s s) (max_s s) = true.
Proof.
  intros Hreach Hin.
  destruct (reachable_store_ok self Hreach) as [Hnd Hall].
  destruct (stats_of_items_inv _ _ Hin) as (x & d & Hentry & Hs).
  assert (Hok : Forall sample_ok (x :: d)).
  { rewrite Forall_forall in Hall. exact (proj2 (Hall _ Hentry)). }
  assert (Hlook : lookup (task s) (_records self) = Some (x :: d))
    by now apply in_lookup.
  unfold series. rewrite Hlook. rewrite Hs. unfold stats_of.
  cbn [count min_s max_s last_s].
  split; [rewrite length_cons; lia|]. split; [reflexivity|].
  split.
  { rewrite Forall_forall in Hok. apply Hok, py_min_in. }
  split; [apply py_min_le; [exact Hok|apply last_in]|].
  split; [apply py_max_ge; [exact Hok|apply last_in]|].
  apply py_min_le; [exact Hok|apply py_max_in].
Qed.

(* ----------------------------------------------------------------- *)
(** ** Blocks that complete *)

(** X15.  A block that completes under a timer of a valid task adds one
    sample to the series of the task, after whatever the block recorded
    itself: the time between the reading at entry and the reading at the
    release, never negative.  The series of the other tasks are as the
    block left them, and the statement raises only if the logger does. *)
Theorem block_completion (ep : pyval -> M _TaskContext) (s : string)
  (body : M unit) (self self1 : TimeTracker) :
  In ep entry_points ->
  Str.strip s <> "" ->
  body (snd (perf_counter self)) = (Returned tt, self1) ->
  let name := Str.strip s in
  let x := elapsed_of (Some (clock (ticks self))) (clock (ticks self1)) in
  let result := with_ (ep (PyStr s)) body self in
  series name (snd result) = (series name self1 ++ [x])%list /\
  sample_ok x /\
  (forall other, other <> name ->
     lookup other (_records (snd result)) = lookup other (_records self1)) /\
  (_emit_each self1 = false ->
   fst result = Returned tt /\ logged (snd result) = logged self1) /\
  (exists level_name,
     fst result =
       match exit_fault (mk_ctx name level_name (Some (clock (ticks self))))
               None self1 with
       | Some e => Raised e
       | None => Returned tt
       end).
Proof.
  intros Hep Hs Hbody name x result.
  pose proof entry_points_ctx as Hall. rewrite Forall_forall in Hall.
  destruct (Hall ep Hep) as [level_name Hctx].
  assert (Hres : result =
    match exit_fault (mk_ctx name level_name (Some (clock (ticks self))))
            None self1 with
    | Some e =>
        (Raised e,
         snd (__exit__ (mk_ctx name level_name (Some (clock (ticks self))))
                None self1))
    | None =>
        (Returned tt,
         snd (__exit__ (mk_ctx name level_name (Some (clock (ticks self))))
                None self1))
    end).
  { unfold result. rewrite Hctx, (with_eq s level_name body self Hs).
    cbv zeta. change (set_ticks (S (ticks self)) self)
      with (snd (perf_counter self)).
    rewrite Hbody. fold name.
    rewrite (exit_eq (mk_ctx name level_name (Some (clock (ticks self))))
               None self1).
    cbv zeta.
    destruct (exit_fault _ None self1); reflexivity. }
  assert (Hrec : _records (snd result) =
                 setdefault_append name x (_records self1)).
  { rewrite Hres.
    destruct (exit_fault _ None self1); cbn [snd]; apply exit_records. }
  split; [|split; [|split; [|split]]].
  - unfold series. rewrite Hrec, series_appended. reflexivity.
  - apply elapsed_of_ok.
  - intros other Hother. rewrite Hrec, lookup_setdefault_append.
    destruct (String.eqb_spec name other) as [E|_]; [congruence|reflexivity].
  - intros Hoff. rewrite Hres. unfold exit_fault. rewrite Hoff.
    cbn [fst snd]. split; [reflexivity|].
    rewrite exit_eq. cbv zeta. rewrite Hoff. unfold exit_fault. rewrite Hoff.
    reflexivity.
  - exists level_name. rewrite Hres.
    destruct (exit_fault _ None self1); reflexivity.
Qed.

(* ----------------------------------------------------------------- *)
(** ** What configure leaves alone *)

(** X16.  [configure] touches the three settings only: never the store, the
    log or the clock, whether it returns or raises.  Called without
    arguments it changes nothing, what it returns is the tracker itself,
    and repeating an accepted call changes nothing more. *)
Theorem configure_settings_only
  (emit_each time_unit summary_level : option pyval) (self : TimeTracker) :
  let result := configure emit_each time_unit summary_level self in
  _records (snd result) = _records self /\
  logged (snd result) = logged self /\
  ticks (snd result) = ticks self /\
  configure None None None self = (Returned self, self) /\
  (forall t, fst result = Returned t ->
     t = snd result /\
     configure emit_each time_unit summary_level (snd result)
     = (Returned (snd result), snd result)).
Proof.
  intros result. unfold result. rewrite configure_eq.
  destruct self as [r e u l lg tk].
  split; [|split; [|split; [|split]]].
  - unfold level_fault, with_summary_level.
    destruct (unit_ok time_unit), emit_each, time_unit,
      summary_level as [v|]; try destruct (py_str v); reflexivity.
  - unfold level_fault, with_summary_level.
    destruct (unit_ok time_unit), emit_each, time_unit,
      summary_level as [v|]; try destruct (py_str v); reflexivity.
  - unfold level_fault, with_summary_level.
    destruct (unit_ok time_unit), emit_each, time_unit,
      summary_level as [v|]; try destruct (py_str v); reflexivity.
  - reflexivity.
  - intros t. destruct (unit_ok time_unit) eqn:Hu; cbn [fst snd];
      [|discriminate].
    destruct (level_fault summary_level) eqn:Hl; cbn [fst snd];
      [discriminate|].
    intros [= <-]. split; [reflexivity|].
    rewrite configure_eq, Hu, Hl. cbv zeta.
    unfold level_fault, with_summary_level in *.
    destruct emit_each, time_unit, summary_level as [v|];
      try destruct (py_str v); try discriminate; reflexivity.
Qed.

(* ----------------------------------------------------------------- *)
(** ** The columns of the table *)

Lemma length_append (a b : string) :
  String.length (a ++ b) = (String.length a + String.length b)%nat.
Proof. induction a as [|c a IH]; simpl; [reflexivity|now rewrite IH]. Qed.

Lemma length_spaces (n : nat) : String.length (Str.spaces n) = n.
Proof. induction n as [|n IH]; simpl; [reflexivity|now rewrite IH]. Qed.

Lemma ljust_length (w : nat) (s : string) :
  String.length (Str.ljust w s) = Nat.max w (String.length s).
Proof. unfold Str.ljust. rewrite length_append, length_spaces. lia. Qed.

Lemma rjust_length (w : nat) (s : string) :
  String.length (Str.rjust w s) = Nat.max w (String.length s).
Proof. unfold Str.rjust. rewrite length_append, length_spaces. lia. Qed.

Lemma prefix_split (n : nat) (s : string) :
  exists cut,
    s = Str.prefix n s ++ cut /\
    String.length (Str.prefix n s) = Nat.min n (String.length s) /\
    ((String.length s <= n)%nat -> cut = "").
Proof.
  unfold Str.prefix. revert s.
  induction n as [|n IH]; intros s.
  - exists s. destruct s; simpl; repeat split; try reflexivity;
      intros H; inversion H.
  - destruct s as [|c s]; simpl.
    + exists "". repeat split.
    + destruct (IH s) as (cut & Hs & Hl & Hc). exists cut.
      split; [now rewrite <- Hs|]. split; [now rewrite Hl|].
      intros H. apply Hc. lia.
Qed.

(** X17.  The task column of a row is always 30 characters wide: a longer
    name is cut to its first 30 characters, a shorter one is padded.  A row
    is never narrower than the header, of 119 characters, and as long as
    the count has at most 7 digits the total of a task and the grand total
    of the last line both start after 41 characters. *)
Theorem table_columns (self : TimeTracker) (s : TaskStats) (g : float) :
  let col := Str.ljust 30 (Str.prefix 30 (task s)) in
  String.length col = 30%nat /\
  (exists cut pad,
     task s = Str.prefix 30 (task s) ++ cut /\
     col = Str.prefix 30 (task s) ++ Str.spaces pad /\
     ((String.length (task s) <= 30)%nat -> cut = "") /\
     ((30 <= String.length (task s))%nat -> pad = 0%nat)) /\
  (exists rest, row self s = col ++ rest) /\
  Str.len header = 119 /\
  Str.len header <= Str.len (row self s) /\
  ((String.length (dec (count s)) <= 7)%nat ->
   exists pre pre' post,
     row self s
       = pre ++ Str.rjust 14 (_fmt_time self (total_s s)) ++ post /\
     total_row self g = pre' ++ Str.rjust 14 (_fmt_time self g) /\
     String.length pre = 41%nat /\
     String.length pre' = 41%nat).
Proof.
  intros col.
  destruct (prefix_split 30 (task s)) as (cut & Hcut & Hlen & Hshort).
  assert (Hcol : String.length col = 30%nat).
  { unfold col. rewrite ljust_length, Hlen. lia. }
  split; [exact Hcol|]. split; [|split; [|split; [|split]]].
  - exists cut, (30 - String.length (Str.prefix 30 (task s)))%nat.
    split; [exact Hcut|]. split; [reflexivity|]. split; [exact Hshort|].
    intros H. rewrite Hlen. lia.
  - eexists. unfold row. fold col. cbn [Str.join String.concat]. reflexivity.
  - reflexivity.
  - change (Str.len header) with 119. unfold Str.len, row. fold col.
    cbn [Str.join String.concat].
    rewrite !length_append, Hcol, !rjust_length.
    change (String.length "  ") with 2%nat. lia.
  - intros Hcount.
    exists (col ++ "  " ++ Str.rjust 7 (dec (count s)) ++ "  ").
    exists (Str.ljust 30 "TOTAL (all tasks)" ++ "  " ++ Str.ljust 7 "" ++ "  ").
    eexists.
    split; [|split; [|split]].
    + unfold row. fold col. cbn [Str.join String.concat].
      rewrite !append_assoc. reflexivity.
    + unfold total_row. cbn [Str.join String.concat].
      rewrite !append_assoc. reflexivity.
    + rewrite !length_append, Hcol, rjust_length.
      change (String.length "  ") with 2%nat. lia.
    + reflexivity.
Qed.

(* ----------------------------------------------------------------- *)
(** ** No NaN in the statistics *)

Lemma measured_sample_ok (x : float) : measured x -> sample_ok x.
Proof.
  unfold sample_ok.
  intros [H| ->]; [|reflexivity].
  destruct x as [s|s| |s m e]; simpl in H; try contradiction.
  - now destruct s.
  - destruct H as [-> _]. reflexivity.
Qed.

Lemma fadd_measured (a b : float) :
  measured a -> measured b -> measured (fadd a b).
Proof.
  intros [Ha| ->] [Hb| ->].
  - destruct (fadd_error a b Ha Hb) as [H|[H _]]; [right|left]; assumption.
  - right. destruct a as [s|s| |s m e]; simpl in Ha; try contradiction;
      reflexivity.
  - right. destruct b as [s|s| |s m e]; simpl in Hb; try contradiction;
      reflexivity.
  - right. reflexivity.
Qed.

Lemma py_sum_measured (d : list float) :
  Forall measured d -> measured (py_sum d).
Proof.
  unfold py_sum.
  assert (H0 : measured zero) by (left; exact I).
  revert H0. generalize zero.
  induction d as [|x d IH]; intros acc Hacc Hd; [exact Hacc|].
  inversion Hd as [|? ? Hx Hd']; subst. cbn [fold_left].
  apply IH; [now apply fadd_measured|assumption].
Qed.

Lemma setdefault_append_measured (k : string) (x : float) (r : records) :
  measured x -> store_measured r -> store_measured (setdefault_append k x r).
Proof.
  intros Hx. unfold store_measured.
  induction 1 as [|[k' d'] r Hd Hall IH]; simpl.
  - apply Forall_cons; [|apply Forall_nil].
    apply Forall_cons; [exact Hx|apply Forall_nil].
  - destruct (String.eqb k' k); apply Forall_cons; simpl in *; auto.
    apply Forall_app. auto.
Qed.

(** X18.  With a reading of the clock that is a well-formed float, a timer
    that is started holds a well-formed start, and the release of such a
    timer records a finite sample that is not negative, or [+inf]: never a
    NaN.  A store of such samples stays one. *)
Theorem release_keeps_measured (ctx : _TaskContext) (exc : option pyexc)
  (self : TimeTracker) :
  valid (clock (ticks self)) = true ->
  (forall timer self', __enter__ ctx self = (Returned timer, self') ->
     well_timed timer) /\
  (well_timed ctx ->
   measured (elapsed_of (_t0 ctx) (clock (ticks self))) /\
   (store_measured (_records self) ->
    store_measured (_records (snd (__exit__ ctx exc self))))).
Proof.
  intros Hclock. split.
  - intros timer self' H. injection H as <- _. exact Hclock.
  - intros Hctx.
    assert (Hx : measured (elapsed_of (_t0 ctx) (clock (ticks self)))).
    { unfold elapsed_of, well_timed in *.
      destruct (_t0 ctx) as [t0|]; now apply elapsed_summable. }
    split; [exact Hx|].
    intros Hstore. rewrite exit_records.
    now apply setdefault_append_measured.
Qed.

(** X19.  When every sample of the store is finite and not negative, or
    [+inf], so are the total, the minimum, the maximum and the last sample
    of every record of the statistics: the total is no NaN and is not below
    [0.0], whatever the number of samples and also when the sum
    overflows. *)
Theorem stats_never_nan (self : TimeTracker) (s : TaskStats) :
  store_measured (_records self) ->
  In s (_compute_stats self) ->
  Forall measured [total_s s; min_s s; max_s s; last_s s] /\
  is_nan (total_s s) = false /\
  fle zero (total_s s) = true.
Proof.
  intros Hstore Hin.
  destruct (stats_of_items_inv _ _ Hin) as (x & d & Hentry & Hs).
  assert (Hd : Forall measured (x :: d)).
  { unfold store_measured in Hstore. rewrite Forall_forall in Hstore.
    exact (Hstore _ Hentry). }
  assert (Htotal : measured (total_s s)).
  { rewrite Hs. unfold stats_of. cbn [total_s]. now apply py_sum_measured. }
  pose proof Hd as Hall. rewrite Forall_forall in Hall.
  split; [|split].
  - rewrite Hs at 2 3 4. unfold stats_of. cbn [min_s max_s last_s].
    repeat (apply Forall_cons; [|]); [| | | |apply Forall_nil].
    + exact Htotal.
    + apply Hall, py_min_in.
    + apply Hall, py_max_in.
    + apply Hall, last_in.
  - apply sample_ok_not_nan. now apply measured_sample_ok.
  - now apply measured_sample_ok.
Qed.

(** The keys [summary] sorts by are thus no NaN on such a store, but for the
    average, which is a NaN where an infinite total is divided by a count
    that [float] rounds to infinity. *)
Lemma measured_keys_no_nan (sort_by : pyval) (key : TaskStats -> sort_key)
  (self : TimeTracker) :
  key_func sort_by = Some key ->
  sort_by <> PyStr "avg" ->
  store_measured (_records self) ->
  Forall (fun s => key_nan (key s) = false) (_compute_stats self).
Proof.
  intros Hkey Havg Hstore. apply Forall_forall. intros s Hin.
  destruct (stats_of_items_inv _ _ Hin) as (x & d & Hentry & Hs).
  assert (Hd : Forall measured (x :: d)).
  { unfold store_measured in Hstore. rewrite Forall_forall in Hstore.
    exact (Hstore _ Hentry). }
  pose proof Hd as Hall. rewrite Forall_forall in Hall.
  assert (Hnan : forall y, measured y -> is_nan y = false).
  { intros y Hy. now apply sample_ok_not_nan, measured_sample_ok. }
  destruct (key_func_some sort_by key Hkey) as (name & -> & Hname).
  unfold sort_keys, key_funcs in Hname. cbn [map fst] in Hname.
  destruct Hname as [<-|[<-|[<-|[<-|[<-|[<-|[]]]]]]];
    injection Hkey as <-; cbn [key_nan]; try reflexivity;
    try congruence; rewrite Hs; unfold stats_of;
    cbn [total_s max_s min_s]; apply Hnan.
  - now apply py_sum_measured.
  - apply Hall, py_max_in.
  - apply Hall, py_min_in.
Qed.

End Tracker.

(* ================================================================= *)
(** * Concrete runs *)

Lemma compute_stats_correct_witness :
  let timer t0 := mk_ctx "load" "INFO" (Some t0) in
  let self1 := snd (__enter__ quadratic_clock (timer zero) init) in
  let self2 :=
    snd (__exit__ quadratic_clock quiet_logger (timer (of_int 0)) None self1) in
  let self3 := snd (__enter__ quadratic_clock (timer zero) self2) in
  let self4 :=
    snd (__exit__ quadratic_clock quiet_logger (timer (of_int 4)) None self3) in
  let d := [of_int 1; of_int 5] in
  lookup "load" (_records self4) = Some d /\
  exists s,
    In s (_compute_stats self4) /\
    (forall s', In s' (_compute_stats self4) -> task s' = "load" -> s' = s) /\
    task s = "load" /\
    count s = 2 /\
    total_s s = py_sum d /\
    ((two_53 - 1) ^ 2 * exact_sum d <= two_53 ^ 2 * units (total_s s)
     <= (two_53 + 1) ^ 2 * exact_sum d) /\
    avg_s s = fdiv (total_s s) (of_int (count s)) /\
    (In (min_s s) d /\ Forall (fun x => fle (min_s s) x = true) d) /\
    (In (max_s s) d /\ Forall (fun x => fle x (max_s s) = true) d) /\
    nth_error d 1 = Some (last_s s).
Proof.
  intros timer self1 self2 self3 self4 d.
  split; [reflexivity|].
  destruct (compute_stats_correct quadratic_clock quiet_logger self4 "load" d)
    as (s & H1 & H2 & H3 & H4 & H5 & H6 & H7);
    [repeat constructor|reflexivity|simpl; lia|].
  exists s. repeat (split; [assumption|]).
  split; [|exact H7].
  apply H6.
  - repeat constructor; vm_compute; discriminate.
  - rewrite H5. vm_compute. split; [reflexivity|discriminate].
Defined.

Lemma with_error_propagates_witness :
  exists e' self2,
    with_ steady_clock quiet_logger (_ctx (PyStr " job ") "INFO")
      failing_block init = (Raised e', self2) /\
    series "job" self2 = [of_int 1] /\
    e' = key_error.
Proof.
  destruct (with_error_propagates steady_clock quiet_logger " job " "INFO"
              failing_block init (set_ticks 1 init) key_error)
    as (e' & self2 & H1 & H2 & H3).
  - vm_compute. discriminate.
  - reflexivity.
  - exists e', self2. split; [exact H1|]. split; [exact H2|exact H3].
Defined.

(** C2 fails where the release itself emits and the logger raises: the
    caller sees the logger's [RuntimeError], not the [KeyError] of the
    block.  The sample is appended all the same. *)
Lemma with_error_replaced :
  let run :=
    with_ steady_clock broken_logger (info (PyStr "job")) failing_block
      (set_emit_each true init) in
  fst run = Raised (mk_exc "RuntimeError" "sink failed") /\
  fst run <> Raised key_error /\
  series "job" (snd run) = [of_int 1].
Proof.
  repeat split; try reflexivity.
  vm_compute. discriminate.
Qed.

Lemma exit_elapsed_clamped_witness :
  let t0 := of_int 12 in
  let t1 := backward_clock 0 in
  let x := py_max2 zero (fsub t1 t0) in
  flt t1 t0 = true /\
  series "job" (snd (__exit__ backward_clock quiet_logger
                       (mk_ctx "job" "INFO" (Some t0)) None init)) = [x] /\
  fle zero x = true /\
  x = zero.
Proof.
  intros t0 t1 x.
  destruct (exit_elapsed_clamped backward_clock quiet_logger "job" "INFO"
              t0 None init) as (H1 & _ & H3 & H4 & _).
  split; [reflexivity|]. split; [exact H1|]. split; [exact H3|].
  apply H4; reflexivity.
Defined.

Lemma configure_validates_witness :
  (exists self',
     configure None (Some (PyStr "minutes")) (Some (PyStr "DEBUG")) init =
       (Raised time_unit_error, self') /\
     _time_unit self' = "s" /\ _summary_level self' = "INFO" /\
     self' = init) /\
  (exists self',
     configure (Some (PyInt 1)) (Some (PyStr "ms")) (Some (PyInt 10)) init
       = (Returned self', self') /\
     config self' = (true, "ms", "10")) /\
  (exists self',
     configure (Some (PyInt 1)) (Some (PyStr "ms"))
       (Some (PyInt ten_power_4300)) init = (Raised int_str_error, self') /\
     config self' = (true, "ms", "INFO")).
Proof.
  split; [|split].
  - destruct (configure_validates None (Some (PyStr "minutes"))
                (Some (PyStr "DEBUG")) init) as (_ & H & _).
    destruct (H eq_refl) as (self' & H1 & H2 & H3 & H4).
    exists self'. repeat split; auto.
  - destruct (configure_validates (Some (PyInt 1)) (Some (PyStr "ms"))
                (Some (PyInt 10)) init) as (_ & _ & H & _).
    destruct (H eq_refl) as (self' & H1 & H2).
    exists self'. split; [exact H1|]. rewrite H2. reflexivity.
  - destruct (configure_validates (Some (PyInt 1)) (Some (PyStr "ms"))
                (Some (PyInt ten_power_4300)) init) as (_ & _ & H & Hf).
    assert (E : level_fault (Some (PyInt ten_power_4300))
                = Some int_str_error).
    { apply Hf. split; [reflexivity|]. exists ten_power_4300.
      split; [reflexivity|]. rewrite ten_power_4300_digits.
      unfold int_max_str_digits. lia. }
    pose proof (H eq_refl) as H'. rewrite E in H'.
    destruct H' as (self' & H1 & H2 & _).
    exists self'. split; [exact H1|]. rewrite H2. reflexivity.
Defined.

(** C4 fails on [emit_each]: it is assigned before [time_unit] is checked,
    so the rejected call has changed the configuration. *)
Lemma configure_rejected_changes_emit_each :
  let run :=
    configure (Some (PyBool true)) (Some (PyStr "minutes"))
      (Some (PyStr "DEBUG")) init in
  fst run = Raised time_unit_error /\
  config init = (false, "s", "INFO") /\
  config (snd run) = (true, "s", "INFO") /\
  config (snd run) <> config init.
Proof. repeat split; try reflexivity. discriminate. Qed.

Lemma summary_sorted_limited_witness :
  let total := fun s => KFloat (total_s s) in
  let rows := take_limit (Some 2) (list_sort total true (_compute_stats abc)) in
  let rendered := _render_summary abc rows default_title in
  let result :=
    summary quiet_logger (PyStr "total") true (Some 2) false default_title abc in
  let order name descending :=
    match key_func (PyStr name) with
    | Some key => map task (shown key descending None mixed)
    | None => []
    end in
  (map task rows = ["A"; "C"] /\
   fst result = Returned rendered /\
   rendered =
     Str.join Str.newline (table_head abc rows default_title)
     ++ Str.newline ++ total_row abc (py_sum (map total_s rows))) /\
  (map task (_compute_stats mixed) = ["b"; "D"; "a"; "C"] /\
   order "total" true = ["C"; "b"; "D"; "a"] /\
   order "avg" true = ["b"; "C"; "a"; "D"] /\
   order "count" true = ["C"; "D"; "b"; "a"] /\
   order "max" true = ["C"; "b"; "a"; "D"] /\
   order "min" true = ["b"; "a"; "C"; "D"] /\
   order "task" true = ["D"; "C"; "b"; "a"] /\
   order "task" false = ["a"; "b"; "C"; "D"] /\
   order "min" false = ["D"; "C"; "a"; "b"]) /\
  StronglySorted
    (fun a b => flt (avg_s a) (avg_s b) = false)
    (shown (fun s => KFloat (avg_s s)) true None mixed).
Proof.
  intros total rows rendered result order.
  split; [|split].
  - destruct (summary_sorted_limited quiet_logger (PyStr "total") total true
                (Some 2) false default_title abc eq_refl)
      as (_ & _ & _ & _ & (_ & H4) & H5 & _).
    + repeat constructor.
    + split; [reflexivity|]. split; [exact H4|].
      apply H5. vm_compute. discriminate.
  - repeat split; vm_compute; reflexivity.
  - destruct (summary_sorted_limited quiet_logger (PyStr "avg")
                (fun s => KFloat (avg_s s)) true None false default_title
                mixed eq_refl)
      as ((_ & H1) & _).
    + repeat constructor.
    + exact H1.
Defined.

Lemma summary_reset_after_render_witness :
  let first := summary quiet_logger (PyStr "total") true None true
                 default_title abc in
  let second := summary quiet_logger (PyStr "task") false None false
                  default_title (snd first) in
  fst first =
    Returned (_render_summary abc
                (shown (fun s => KFloat (total_s s)) true None abc)
                default_title) /\
  _records (snd first) = [] /\
  fst second = Returned (no_data default_title).
Proof.
  intros first second.
  destruct (summary_reset_after_render quiet_logger (PyStr "total") true None
              default_title
              (_render_summary abc
                 (shown (fun s => KFloat (total_s s)) true None abc)
                 default_title)
              abc (snd first) eq_refl)
    as (_ & H2 & _ & H4).
  split; [reflexivity|]. split; [exact H2|].
  exact (proj2 (H4 (PyStr "task") _ false None false default_title eq_refl)).
Defined.

Lemma blank_task_rejected_witness :
  info (PyStr "   ") demo =
    (Raised (ValueError "task name must be a non-empty string"), demo) /\
  with_ steady_clock quiet_logger (info (PyStr "   ")) failing_block demo =
    (Raised (ValueError "task name must be a non-empty string"), demo).
Proof.
  apply (blank_task_rejected steady_clock quiet_logger info "   " demo
           failing_block).
  - simpl. tauto.
  - reflexivity.
Defined.

Lemma summary_rejects_sort_by_witness :
  summary quiet_logger (PyStr "median") true None true default_title demo =
    (Raised (ValueError
       "sort_by must be one of: total, avg, count, max, min, task"), demo).
Proof.
  apply (summary_rejects_sort_by quiet_logger (PyStr "median") true None true
           default_title demo).
  simpl. intuition discriminate.
Defined.

Lemma summary_level_unvalidated_witness :
  let accepted v level :=
    exists self',
      configure None None (Some v) abc = (Returned self', self') /\
      _summary_level self' = level /\
      fst (summary level_logger (PyStr "total") true None false default_title
             self')
      = Raised (ValueError ("Level '" ++ level ++ "' does not exist")) in
  accepted (PyStr "LOUD") "LOUD" /\
  accepted (PyInt 20) "20" /\
  accepted (PyInt (-7)) "-7" /\
  accepted (PyBool true) "True" /\
  accepted (PyBool false) "False".
Proof.
  intros accepted.
  assert (H : forall v level,
             py_str v = Returned level ->
             level_logger [] (mk_call [] true level "" []) <> None ->
             accepted v level).
  { intros v level Hstr Hlevel.
    destruct (summary_level_unvalidated level_logger None None v abc)
      as (_ & _ & H & _).
    destruct (H level eq_refl Hstr) as (self' & H1 & H2 & H3).
    exists self'. split; [exact H1|]. split; [exact H2|].
    destruct (H3 (PyStr "total") _ true None false default_title eq_refl)
      as (H4 & _ & H5).
    rewrite H5. unfold level_logger in *. rewrite H4.
    cbn [call_level] in Hlevel.
    destruct (existsb _ _); [congruence|reflexivity]. }
  split; [|split; [|split; [|split]]];
    (apply H; [reflexivity|vm_compute; discriminate]).
Defined.

(** C10 fails on an int of more than 4300 digits: [str] raises on it, so
    [configure] rejects the call for its [summary_level], with [emit_each]
    and [time_unit] already assigned. *)
Lemma summary_level_long_int_rejected :
  let run :=
    configure (Some (PyBool true)) (Some (PyStr "ms"))
      (Some (PyInt ten_power_4300)) init in
  ten_power_4300 = Nat.iter 4300 (Z.mul 10) 1 /\
  int_digits ten_power_4300 = 4301%nat /\
  fst run = Raised int_str_error /\
  exc_name int_str_error = "ValueError" /\
  config init = (false, "s", "INFO") /\
  config (snd run) = (true, "ms", "INFO").
Proof.
  intros run.
  assert (E : py_str (PyInt ten_power_4300) = Raised int_str_error).
  { cbn [py_str]. rewrite ten_power_4300_digits. reflexivity. }
  assert (R : run = (Raised int_str_error,
                     set_time_unit "ms" (set_emit_each true init))).
  { unfold run. rewrite configure_eq. cbn [unit_ok level_fault].
    rewrite E. reflexivity. }
  split; [exact ten_power_4300_value|].
  split; [exact ten_power_4300_digits|].
  rewrite R. repeat split.
Qed.


(* ================================================================= *)
(** * Concrete runs of the further properties *)

Lemma task_name_stripped_witness :
  exists ctx,
    warning (PyStr "  load data  ") demo = (Returned ctx, demo) /\
    _task ctx = "load data" /\
    _level_name ctx = "WARNING" /\
    warning (PyStr "load data") demo = (Returned ctx, demo).
Proof.
  destruct (task_name_stripped warning "  load data  " demo)
    as (ctx & H1 & H2 & _ & _ & _ & H6).
  - simpl. tauto.
  - vm_compute. discriminate.
  - exists ctx. split; [exact H1|]. split; [rewrite H2; reflexivity|].
    split; [injection H1 as <-; reflexivity|].
    apply H6. reflexivity.
Defined.

Lemma non_str_task_rejected_witness :
  info (PyInt 7) demo =
    (Raised (ValueError "task name must be a non-empty string"), demo) /\
  with_ steady_clock quiet_logger (info (PyInt 7)) failing_block demo =
    (Raised (ValueError "task name must be a non-empty string"), demo).
Proof.
  apply (non_str_task_rejected steady_clock quiet_logger info (PyInt 7) demo
           failing_block).
  - simpl. tauto.
  - intros s. discriminate.
Defined.

Lemma release_emission_witness :
  let timer := mk_ctx "job" "ERROR" (Some zero) in
  let quiet :=
    __exit__ steady_clock quiet_logger timer (Some key_error) init in
  let loud :=
    __exit__ steady_clock quiet_logger timer (Some key_error)
      (set_emit_each true init) in
  logged (snd quiet) = [] /\
  exists c,
    logged (snd loud) = [c] /\
    call_level c = "ERROR" /\
    dict_get "status" (call_extra c) = Some (LStr "EXC:KeyError").
Proof.
  intros timer quiet loud.
  split.
  - destruct (release_emission steady_clock quiet_logger timer
                (Some key_error) init) as [H _].
    exact (proj1 (H eq_refl)).
  - destruct (release_emission steady_clock quiet_logger timer
                (Some key_error) (set_emit_each true init)) as [_ H].
    destruct (H eq_refl) as (c & H1 & _ & H3 & _ & _ & _ & H7 & _).
    exists c. split; [exact H1|]. split; [exact H3|exact H7].
Defined.

Lemma every_message_tagged_witness :
  let timer := mk_ctx "job" "INFO" (Some zero) in
  let self1 := snd (configure (Some (PyBool true)) None None init) in
  let self2 := snd (__enter__ steady_clock timer self1) in
  let self3 := snd (__exit__ steady_clock quiet_logger timer None self2) in
  let self4 :=
    snd (summary quiet_logger (PyStr "total") true None false default_title
           self3) in
  List.length (logged self4) = 2%nat /\ Forall tagged (logged self4).
Proof.
  intros timer self1 self2 self3 self4.
  split; [vm_compute; reflexivity|].
  apply (every_message_tagged steady_clock quiet_logger).
  apply reach_summary, reach_exit, reach_enter, reach_configure, reach_init.
Defined.

Lemma time_unit_recognized_witness :
  let self1 := snd (configure None (Some (PyStr "ms")) None init) in
  let self2 := snd (configure None (Some (PyStr "minutes")) None self1) in
  _time_unit self2 = "ms" /\
  forall x, _fmt_time self2 x = format_f 3 (fmul x thousand) ++ " ms".
Proof.
  intros self1 self2.
  destruct (time_unit_recognized steady_clock quiet_logger self2)
    as [[H _]|H].
  - apply reach_configure, reach_configure, reach_init.
  - vm_compute in H. discriminate.
  - exact H.
Defined.

Lemma sort_keeps_ties_in_order_witness :
  let self :=
    set_records
      [("b", [of_int 1]); ("a", [of_int 2]); ("c", [of_int 3; of_int 4])]
      init in
  let by_count := fun s => KInt (count s) in
  let once := fun s => count s =? 1 in
  key_func (PyStr "count") = Some by_count /\
  map task (shown by_count true None self) = ["c"; "b"; "a"] /\
  filter once (shown by_count true None self)
  = filter once (_compute_stats self).
Proof.
  intros self by_count once.
  split; [reflexivity|]. split; [vm_compute; reflexivity|].
  apply (sort_keeps_ties_in_order by_count true once self).
  intros a b Ha Hb. unfold once in Ha, Hb. unfold by_count.
  apply Z.eqb_eq in Ha, Hb. now rewrite Ha, Hb.
Defined.

Lemma limit_bounds_witness :
  let total := fun s => KFloat (total_s s) in
  List.length (shown total true (Some 2) abc) = 2%nat /\
  List.length (shown total true (Some (-1)) abc) = 0%nat /\
  shown total true (Some 7) abc = shown total true None abc.
Proof.
  intros total.
  split; [|split].
  - exact (proj1 (limit_bounds total true 2 abc)).
  - exact (proj1 (limit_bounds total true (-1) abc)).
  - apply (proj2 (proj2 (limit_bounds total true 7 abc))).
    vm_compute. discriminate.
Defined.

Lemma summary_failure_keeps_samples_witness :
  let result :=
    summary broken_logger (PyStr "total") true None true default_title abc in
  fst result = Raised (mk_exc "RuntimeError" "sink failed") /\
  _records (snd result) = _records abc.
Proof.
  intros result.
  destruct (summary_failure_keeps_samples broken_logger (PyStr "total")
              (fun s => KFloat (total_s s)) true None true default_title abc
              (mk_exc "RuntimeError" "sink failed") eq_refl eq_refl)
    as (H1 & H2 & _).
  split; [exact H1|exact H2].
Defined.

Lemma summary_repeatable_witness :
  let rendered :=
    _render_summary abc (shown (fun s => KFloat (total_s s)) true None abc)
      default_title in
  let first :=
    summary quiet_logger (PyStr "total") true None false default_title abc in
  let second :=
    summary quiet_logger (PyStr "total") true None false default_title
      (snd first) in
  fst first = Returned rendered /\
  fst second = Returned rendered /\
  _records (snd first) = _records abc.
Proof.
  intros rendered first second.
  destruct (summary_repeatable quiet_logger (PyStr "total") true None
              default_title rendered abc (snd first) eq_refl)
    as (H1 & _ & _ & _ & _ & H6).
  split; [reflexivity|]. split; [exact H6|exact H1].
Defined.

Lemma reset_is_summary_then_clear_witness :
  let rendered :=
    _render_summary abc (shown (fun s => KFloat (total_s s)) true None abc)
      default_title in
  exists self1,
    summary quiet_logger (PyStr "total") true None false default_title abc
      = (Returned rendered, self1) /\
    clear self1 =
      (Returned tt,
       snd (summary quiet_logger (PyStr "total") true None true
              default_title abc)).
Proof.
  intros rendered.
  exact (reset_is_summary_then_clear quiet_logger (PyStr "total") true None
           default_title rendered abc _ eq_refl).
Defined.

Lemma rows_are_the_tasks_witness :
  let release name t0 self :=
    snd (__exit__ steady_clock quiet_logger (mk_ctx name "INFO" t0) None
           self) in
  let self3 :=
    release "b" (Some zero) (release "a" (Some zero) (release "b" None init)) in
  let by_task := fun s => KStr (Str.lower (task s)) in
  keys (_records self3) = ["b"; "a"] /\
  map task (_compute_stats self3) = ["b"; "a"] /\
  map task (shown by_task false None self3) = ["a"; "b"] /\
  Permutation (map task (shown by_task false None self3)) ["b"; "a"].
Proof.
  intros release self3 by_task.
  destruct (rows_are_the_tasks steady_clock quiet_logger by_task false None
              self3) as (H1 & _ & _ & H4).
  - apply reach_exit, reach_exit, reach_exit, reach_init.
  - split; [reflexivity|]. split; [exact H1|].
    split; [vm_compute; reflexivity|exact (H4 eq_refl)].
Defined.

Lemma stats_record_bounds_witness :
  let release name t0 self :=
    snd (__exit__ steady_clock quiet_logger (mk_ctx name "INFO" t0) None
           self) in
  let self3 :=
    release "b" (Some zero) (release "a" (Some zero) (release "b" None init)) in
  exists s,
    In s (_compute_stats self3) /\
    task s = "b" /\
    count s = 2 /\
    min_s s = zero /\ last_s s = of_int 2 /\
    fle (min_s s) (last_s s) = true /\
    fle (last_s s) (max_s s) = true.
Proof.
  intros release self3.
  exists (stats_of "b" zero [of_int 2]).
  assert (Hin : In (stats_of "b" zero [of_int 2]) (_compute_stats self3))
    by (left; vm_compute; reflexivity).
  destruct (stats_record_bounds steady_clock quiet_logger self3 _
              (reach_exit _ _ _ _ _
                 (reach_exit _ _ _ _ _
                    (reach_exit _ _ _ _ _ (reach_init _ _)))) Hin)
    as (_ & _ & _ & H4 & H5 & _).
  split; [exact Hin|].
  do 4 (split; [reflexivity|]).
  split; [exact H4|exact H5].
Defined.

Lemma block_completion_witness :
  let inner :=
    with_ steady_clock quiet_logger (info (PyStr "inner")) (ret tt) in
  let result :=
    with_ steady_clock quiet_logger (debug (PyStr " outer ")) inner init in
  fst result = Returned tt /\
  series "outer" (snd result) = [of_int 3] /\
  series "inner" (snd result) = [of_int 1].
Proof.
  intros inner result.
  destruct (block_completion steady_clock quiet_logger debug " outer " inner
              init (snd (inner (snd (perf_counter steady_clock init)))))
    as (H1 & _ & H3 & H4 & _).
  - simpl. tauto.
  - vm_compute. discriminate.
  - vm_compute. reflexivity.
  - split; [exact (proj1 (H4 eq_refl))|]. split; [exact H1|].
    unfold series. unfold result.
    rewrite (H3 "inner"); [reflexivity|vm_compute; discriminate].
Defined.

Lemma configure_settings_only_witness :
  let first :=
    configure (Some (PyBool true)) (Some (PyStr "ms")) None demo in
  let second :=
    configure (Some (PyBool true)) (Some (PyStr "ms")) None (snd first) in
  config (snd first) = (true, "ms", "INFO") /\
  _records (snd first) = _records demo /\
  second = (Returned (snd first), snd first).
Proof.
  intros first second.
  destruct (configure_settings_only (Some (PyBool true)) (Some (PyStr "ms"))
              None demo) as (H1 & _ & _ & _ & H5).
  split; [reflexivity|]. split; [exact H1|].
  exact (proj2 (H5 (snd first) eq_refl)).
Defined.

Lemma table_columns_witness :
  let s :=
    stats_of "a task with a name of forty-four characters." (of_int 2) [] in
  String.length (task s) = 44%nat /\
  String.length (row abc s) = 119%nat /\
  exists pre post,
    row abc s = pre ++ Str.rjust 14 "2.000000 s" ++ post /\
    String.length pre = 41%nat.
Proof.
  intros s.
  destruct (table_columns abc s (of_int 2)) as (_ & _ & _ & _ & _ & H).
  destruct H as (pre & pre' & post & H1 & H2 & H3 & H4).
  - vm_compute. lia.
  - split; [reflexivity|]. split; [vm_compute; reflexivity|].
    exists pre, post. split; [exact H1|exact H3].
Defined.

Lemma release_keeps_measured_witness :
  let timer := mk_ctx "load" "INFO" (Some (steady_clock 1)) in
  let self := set_ticks 3 demo in
  measured (of_int 2) /\
  series "load" (snd (__exit__ steady_clock quiet_logger timer None self))
  = (series "load" demo ++ [of_int 2])%list /\
  exists started,
    __enter__ steady_clock timer self = (Returned started, set_ticks 4 demo) /\
    _t0 started = Some (of_int 3) /\
    well_timed started.
Proof.
  intros timer self.
  destruct (release_keeps_measured steady_clock quiet_logger timer None self
              eq_refl) as [H1 H2].
  split; [exact (proj1 (H2 eq_refl))|].
  split; [vm_compute; reflexivity|].
  exists (mk_ctx "load" "INFO" (Some (steady_clock 3))).
  split; [reflexivity|]. split; [reflexivity|].
  exact (H1 (mk_ctx "load" "INFO" (Some (steady_clock 3)))
            (set_ticks 4 demo) eq_refl).
Defined.

Lemma stats_never_nan_witness :
  exists s,
    In s (_compute_stats demo) /\
    task s = "load" /\
    measured (total_s s) /\
    is_nan (total_s s) = false.
Proof.
  exists (stats_of "load" (of_int 2) [fdiv (of_int 1) (of_int 2); of_int 1]).
  assert (Hin : In (stats_of "load" (of_int 2)
                      [fdiv (of_int 1) (of_int 2); of_int 1])
                  (_compute_stats demo)) by (left; reflexivity).
  destruct (stats_never_nan demo
              (stats_of "load" (of_int 2)
                 [fdiv (of_int 1) (of_int 2); of_int 1]))
    as (H1 & H2 & _); [|exact Hin|].
  - repeat (apply Forall_cons || apply Forall_nil);
      left; vm_compute; (split; [reflexivity|discriminate]).
  - split; [exact Hin|]. split; [reflexivity|].
    split; [exact (Forall_inv H1)|exact H2].
Defined.
